(** * Job-lifecycle monitoring and incremental rendering of static/js/app.js

    A shallow embedding of the client script: the module state [state], the
    DOM nodes of [elements] that the script reads and writes, the upload
    coordinator, the active job monitor (the [setInterval] callback of
    [startJobMonitoring]) and the job list synchronizer ([fetchJobs],
    [updateJobsSelectively], [updateSpecificCards], [renderJobs]).

    Conventions of the embedding:
    - every callback runs to completion (one event loop), so a callback is a
      function [World -> World]; an [await] splits a function in the part
      before and the part after the network answer, the answer being an
      argument of the second part. A callback that writes nothing before its
      [await] (the monitor's tick, [fetchJobs]) is one function of the
      answer; the monitor's answers are taken in the order of its ticks, each
      before the next tick fires;
    - JS numbers that hold counts or time values are [Z]; [progress] is an
      IEEE-754 binary64 number, as in JS, so [job.progress * 100] and
      [Math.round] are computed on doubles;
    - strings are [string]; case mapping is the ASCII one;
    - a card is the record of the holes of the template literal of
      [createJobCardHTML]; the constant markup around the holes is left out. *)

From Stdlib Require Import ZArith List String Ascii Bool Floats Lia.
From Stdlib Require Import DecimalString Permutation Sorted.
Import ListNotations.

(* Decimal literals such as 0.999 stand for the nearest double, as in JS. *)
Set Warnings "-inexact-float".

Open Scope string_scope.
Open Scope Z_scope.
Open Scope list_scope.

(** ** Host primitives used by the script *)
Module JS.

(** [String.prototype.toLowerCase], on ASCII letters. *)
Definition lower_char (c : ascii) : ascii :=
  let n := nat_of_ascii c in
  if ((65 <=? n) && (n <=? 90))%nat then ascii_of_nat (n + 32) else c.

Definition upper_char (c : ascii) : ascii :=
  let n := nat_of_ascii c in
  if ((97 <=? n) && (n <=? 122))%nat then ascii_of_nat (n - 32) else c.

Fixpoint toLowerCase (s : string) : string :=
  match s with
  | EmptyString => EmptyString
  | String c s' => String (lower_char c) (toLowerCase s')
  end.

(** [s.endsWith(suffix)]: some tail of [s] is [suffix]. *)
Fixpoint endsWith (s suffix : string) : bool :=
  if String.eqb s suffix then true
  else match s with
       | EmptyString => false
       | String _ s' => endsWith s' suffix
       end.

(** [s.charAt(0).toUpperCase() + s.slice(1)]. *)
Definition capitalize (s : string) : string :=
  match s with
  | EmptyString => EmptyString
  | String c s' => String (upper_char c) s'
  end.

(** The value of [Math.round(x)]: NaN, an infinity, or an integer
    (a negative zero prints as 0, so it is the integer 0 here). *)
Inductive rounded : Type :=
| RNaN
| RInfinity (negative : bool)
| RInt (z : Z).

(** [Math.round]: the integer nearest to the double, a tie going to +oo,
    which is floor(x + 1/2) computed exactly on x = n * 2^e. *)
Definition Math_round (x : float) : rounded :=
  match Prim2SF x with
  | S754_nan => RNaN
  | S754_infinity s => RInfinity s
  | S754_zero _ => RInt 0
  | S754_finite s m e =>
      let n := if s then Z.neg m else Z.pos m in
      if 0 <=? e then RInt (n * 2 ^ e)
      else RInt ((2 * n + 2 ^ (- e)) / 2 ^ (- e + 1))
  end.

(** Decimal digits of an integer, as a template literal prints it when the
    integer is below 10^21 in absolute value (from there on JS prints a
    number in exponent notation, which this function does not do). *)
Definition Z_toString (z : Z) : string := NilZero.string_of_int (Z.to_int z).

(** Number-to-string of a rounded value (integers below 10^21 in absolute
    value print in plain decimal, which is the range a percentage lives in). *)
Definition rounded_toString (r : rounded) : string :=
  match r with
  | RNaN => "NaN"
  | RInfinity false => "Infinity"
  | RInfinity true => "-Infinity"
  | RInt z => Z_toString z
  end.

(** [response.ok]: the status is in the range 200-299. *)
Definition response_ok (status : Z) : bool := (200 <=? status) && (status <=? 299).

(** [a !== b] on two numbers (NaN differs from itself, 0 equals -0). *)
Definition number_neq (a b : float) : bool := negb (PrimFloat.eqb a b).

(** [a !== b] on two strings. *)
Definition string_neq (a b : string) : bool := negb (String.eqb a b).

(** [a !== b] on two values that are a string or absent. *)
Definition opt_string_neq (a b : option string) : bool :=
  match a, b with
  | Some x, Some y => string_neq x y
  | None, None => false
  | _, _ => true
  end.

End JS.

(** ** Data model *)

(** A [File] handle of the browser: the script reads [name] and [size]. *)
Record File : Type := mkFile { name : string; size : Z }.

(** A job record of the list and status endpoints. [created_at] is the time
    value (milliseconds) of [new Date(job.created_at)]; [message] is absent
    when the field is null or missing. *)
Record Job : Type := mkJob {
  job_id : string;
  status : string;
  progress : float;
  message : option string;
  created_at : Z;
  total_files : Z
}.

(** The module-level [state] object ([refreshInterval], the handle of the
    synchronizer's timer, plays no part in a callback and is left out). *)
Record State : Type := mkState {
  selectedFiles : list File;
  currentJobId : option string;
  jobs : list Job
}.

(** One entry of the rendered file list: the index goes in the remove
    button's handler; the size is shown through [formatFileSize]. *)
Record FileItem : Type := mkFileItem {
  item_index : nat;
  item_name : string;
  item_size : Z
}.

Inductive Icon : Type :=
| IconPending | IconUploading | IconProcessing | IconCompleted | IconFailed.

Inductive Timestamp : Type :=
| TimeText (text : string)
| LocaleDateTime (date : Z).

Inductive CardAction : Type :=
| DownloadCSV (id : string)
| DisabledProcessing.

(** The holes of the card template, top to bottom. *)
Record Card : Type := mkCard {
  data_job_id : string;
  card_color : string;
  card_icon : Icon;
  card_status : string;
  card_time : Timestamp;
  card_files : string;
  card_progress : option string;
  card_message : option string;
  card_action : CardAction
}.

(** The upload nodes of [elements]. *)
Record UploadView : Type := mkUploadView {
  uploadArea_hidden : bool;
  fileInput_value : string;
  fileList_hidden : bool;
  fileList_items : list FileItem;
  uploadActions_hidden : bool
}.

(** The processing-status nodes of [elements]. *)
Record StatusView : Type := mkStatusView {
  processingStatus_hidden : bool;
  statusTitle : string;
  statusMessage : string;
  progressFill_width : string;
  progressText : string
}.

(** The history nodes of [elements]; [historyList] holds the cards. *)
Record HistoryView : Type := mkHistoryView {
  historyLoading_hidden : bool;
  historyEmpty_hidden : bool;
  historyList_hidden : bool;
  historyList : list Card
}.

(** The variables closed over by the interval callback of
    [startJobMonitoring]: [errorCount], whether [checkInterval] is still
    scheduled, and whether the 2-second [setTimeout(resetUploadUI)] is
    pending. *)
Record Monitor : Type := mkMonitor {
  errorCount : Z;
  checkInterval : bool;
  settleTimeout : bool
}.

(** Everything a callback can read or write; [alerts] logs the calls of
    [alert], newest first. *)
Record World : Type := mkWorld {
  state : State;
  upload_ui : UploadView;
  status_ui : StatusView;
  history_ui : HistoryView;
  monitor : Monitor;
  alerts : list string
}.

Definition set_state (f : State -> State) (w : World) : World :=
  mkWorld (f (state w)) (upload_ui w) (status_ui w) (history_ui w) (monitor w) (alerts w).
Definition set_upload_ui (f : UploadView -> UploadView) (w : World) : World :=
  mkWorld (state w) (f (upload_ui w)) (status_ui w) (history_ui w) (monitor w) (alerts w).
Definition set_status_ui (f : StatusView -> StatusView) (w : World) : World :=
  mkWorld (state w) (upload_ui w) (f (status_ui w)) (history_ui w) (monitor w) (alerts w).
Definition set_history_ui (f : HistoryView -> HistoryView) (w : World) : World :=
  mkWorld (state w) (upload_ui w) (status_ui w) (f (history_ui w)) (monitor w) (alerts w).
Definition set_monitor (f : Monitor -> Monitor) (w : World) : World :=
  mkWorld (state w) (upload_ui w) (status_ui w) (history_ui w) (f (monitor w)) (alerts w).
Definition alert (msg : string) (w : World) : World :=
  mkWorld (state w) (upload_ui w) (status_ui w) (history_ui w) (monitor w) (msg :: alerts w).

(** The page as loaded: the initial [state] object, nothing rendered, no
    timer of the monitor scheduled (the visibility flags are those the page's
    markup is expected to start with; no result below depends on them). *)
Definition initial_world : World :=
  mkWorld (mkState [] None [])
          (mkUploadView false "" true [] true)
          (mkStatusView true "" "" "" "")
          (mkHistoryView false true true [])
          (mkMonitor 0 false false)
          [].

(** ** Selection manager *)

(** The filter of [handleFiles]: [file.name.toLowerCase().endsWith('.pdf')]. *)
Definition isPdf (file : File) : bool :=
  JS.endsWith (JS.toLowerCase (name file)) ".pdf".

(** [selectedFiles.map((file, index) => ...)], from index [i]. *)
Fixpoint fileItems (i : nat) (files : list File) : list FileItem :=
  match files with
  | [] => []
  | f :: rest => mkFileItem i (name f) (size f) :: fileItems (S i) rest
  end.

Definition renderFileList (w : World) : World :=
  if (List.length (selectedFiles (state w)) =? 0)%nat then
    set_upload_ui (fun u =>
      mkUploadView (uploadArea_hidden u) (fileInput_value u) true
                   (fileList_items u) true) w
  else
    set_upload_ui (fun u =>
      mkUploadView (uploadArea_hidden u) (fileInput_value u) false
                   (fileItems 0 (selectedFiles (state w))) false) w.

Definition set_selectedFiles (files : list File) : World -> World :=
  set_state (fun s => mkState files (currentJobId s) (jobs s)).

Definition set_currentJobId (id : option string) : World -> World :=
  set_state (fun s => mkState (selectedFiles s) id (jobs s)).

Definition set_jobs (js : list Job) : World -> World :=
  set_state (fun s => mkState (selectedFiles s) (currentJobId s) js).

Definition set_fileInput_value (v : string) : World -> World :=
  set_upload_ui (fun u =>
    mkUploadView (uploadArea_hidden u) v (fileList_hidden u)
                 (fileList_items u) (uploadActions_hidden u)).

Definition handleFiles (files : list File) (w : World) : World :=
  let pdfFiles := filter isPdf files in
  if (List.length pdfFiles =? 0)%nat then
    alert "Please select PDF files only" w
  else
    renderFileList (set_selectedFiles pdfFiles w).

(** [array.splice(index, 1)] for an index from the rendered list. *)
Fixpoint splice1 {A : Type} (index : nat) (l : list A) : list A :=
  match l, index with
  | [], _ => []
  | _ :: rest, O => rest
  | x :: rest, S i => x :: splice1 i rest
  end.

Definition removeFile (index : nat) (w : World) : World :=
  renderFileList (set_selectedFiles (splice1 index (selectedFiles (state w))) w).

Definition clearFiles (w : World) : World :=
  renderFileList (set_fileInput_value "" (set_selectedFiles [] w)).

(** ** Upload coordinator and active job monitor *)

Definition resetUploadUI (w : World) : World :=
  let w := set_currentJobId None w in
  let w := set_selectedFiles [] w in
  let w := set_fileInput_value "" w in
  let w := set_status_ui (fun s =>
             mkStatusView true (statusTitle s) (statusMessage s)
                          (progressFill_width s) (progressText s)) w in
  let w := set_upload_ui (fun u =>
             mkUploadView false (fileInput_value u) (fileList_hidden u)
                          (fileList_items u) (uploadActions_hidden u)) w in
  renderFileList w.

(** [startJobMonitoring]: a fresh [errorCount] and a scheduled interval.
    Its first statement, [fetchJobs()], only issues a request: the answer is
    handled by a synchronizer tick ([fetchJobs] below). *)
Definition startJobMonitoring (w : World) : World :=
  set_monitor (fun m => mkMonitor 0 true (settleTimeout m)) w.

(** The answer to [POST /api/upload]: the request or the reading of its body
    is rejected, or a status comes with the [job_id] of the body, if any. *)
Inductive UploadResponse : Type :=
| UploadRejected
| UploadHttp (http_status : Z) (job_id_field : option string).

(** [uploadFiles] up to its [await]: nothing for an empty selection;
    otherwise the form data (every selected file, in order) is built, the
    upload nodes are hidden, the processing node is shown, and the request
    leaves with the form data. *)
Definition uploadFiles_begin (w : World) : World * option (list File) :=
  if (List.length (selectedFiles (state w)) =? 0)%nat then (w, None)
  else
    let formData := selectedFiles (state w) in
    let w := set_upload_ui (fun u =>
               mkUploadView true (fileInput_value u) true
                            (fileList_items u) true) w in
    let w := set_status_ui (fun s =>
               mkStatusView false (statusTitle s) (statusMessage s)
                            (progressFill_width s) (progressText s)) w in
    (w, Some formData).

(** [uploadFiles] after its [await]. *)
Definition uploadFiles_resume (r : UploadResponse) (w : World) : World :=
  match r with
  | UploadHttp http_status id =>
      if JS.response_ok http_status then
        startJobMonitoring (set_currentJobId id w)
      else resetUploadUI (alert "Upload failed. Please try again." w)
  | UploadRejected => resetUploadUI (alert "Upload failed. Please try again." w)
  end.

Definition MAX_ERRORS : Z := 3.

Definition clearInterval (w : World) : World :=
  set_monitor (fun m => mkMonitor (errorCount m) false (settleTimeout m)) w.

Definition set_errorCount (n : Z) : World -> World :=
  set_monitor (fun m => mkMonitor n (checkInterval m) (settleTimeout m)).

(** [setTimeout(resetUploadUI, 2000)]. *)
Definition setTimeout_reset (w : World) : World :=
  set_monitor (fun m => mkMonitor (errorCount m) (checkInterval m) true) w.

(** The percentage text of both the monitor and the cards:
    [`${Math.round(job.progress * 100)}%`]. *)
Definition percent (p : float) : string :=
  (JS.rounded_toString (JS.Math_round (PrimFloat.mul p 100%float)) ++ "%")%string.

(** [job.message || 'Processing...']: an absent or empty message is falsy. *)
Definition message_or_default (m : option string) : string :=
  match m with
  | Some (String c s) => String c s
  | _ => "Processing..."
  end.

Definition isTerminal (st : string) : bool :=
  String.eqb st "completed" || String.eqb st "failed".

(** The answer to [GET /api/jobs/{id}/status]: the request is rejected, or a
    status comes with the job record of the body ([None] when reading the
    body as JSON is rejected; a body that parses is a job record, as the
    endpoint promises). *)
Inductive StatusResponse : Type :=
| StatusRejected
| StatusHttp (http_status : Z) (body : option Job).

(** The [catch] block of the interval callback. *)
Definition monitoring_error (w : World) : World :=
  let w := set_errorCount (errorCount (monitor w) + 1) w in
  if MAX_ERRORS <=? errorCount (monitor w) then
    resetUploadUI
      (alert "Lost connection to server. Please check processing history for updates."
             (clearInterval w))
  else w.

(** The "Update processing status" statements. *)
Definition showJobStatus (job : Job) (w : World) : World :=
  set_status_ui (fun s =>
    mkStatusView (processingStatus_hidden s)
                 (JS.capitalize (status job))
                 (message_or_default (message job))
                 (percent (progress job))
                 (percent (progress job))) w.

(** [state.currentJobId] is truthy: there is an id and it is not the empty
    string. *)
Definition truthy (id : option string) : bool :=
  match id with
  | Some (String _ _) => true
  | _ => false
  end.

(** The interval callback from its [await] on: what it does with the answer
    to its request. It runs whenever its request was sent, whatever happened
    to the interval or to [state.currentJobId] in the meantime. *)
Definition monitorAnswer (r : StatusResponse) (w : World) : World :=
  match r with
  | StatusRejected => monitoring_error w
  | StatusHttp http_status body =>
      if negb (JS.response_ok http_status) then
        if http_status =? 404 then resetUploadUI (clearInterval w)
        else monitoring_error w
      else
        match body with
        | None => monitoring_error w
        | Some job =>
            let w := set_errorCount 0 w in
            let w := showJobStatus job w in
            if isTerminal (status job) then setTimeout_reset (clearInterval w)
            else w
        end
  end.

(** The interval callback up to its [await]: without a current job id it
    clears the interval and sends nothing ([false]); otherwise it sends the
    status request ([true]). *)
Definition monitorFire (w : World) : World * bool :=
  if truthy (currentJobId (state w)) then (w, true)
  else (clearInterval w, false).

(** One tick of [startJobMonitoring] whose answer comes before anything else
    happens: the interval callback fires, if the interval is still
    scheduled, and runs on with the answer [r] of the request it sent. *)
Definition monitorTick (r : StatusResponse) (w : World) : World :=
  if negb (checkInterval (monitor w)) then w
  else
    let (w1, sent) := monitorFire w in
    if sent then monitorAnswer r w1 else w1.

(** The pending [setTimeout(resetUploadUI, 2000)] fires. *)
Definition settleFire (w : World) : World :=
  if settleTimeout (monitor w) then
    resetUploadUI
      (set_monitor (fun m => mkMonitor (errorCount m) (checkInterval m) false) w)
  else w.

(** A run of the monitor in which every answer comes before the next tick
    fires: the ticks in order, each with its answer. *)
Definition monitorRun (rs : list StatusResponse) (w : World) : World :=
  fold_left (fun w r => monitorTick r w) rs w.

(** What happens to the monitor in any run: the interval fires, or the
    answer to a request that is in flight arrives. *)
Inductive MonitorEvent : Type :=
| TickFires
| AnswerArrives (r : StatusResponse).

(** One event of the monitor, on the world and the number of status requests
    in flight. A cleared interval does not fire; an answer arrives only for
    a request in flight. *)
Definition monitorStep (e : MonitorEvent) (p : World * nat) : World * nat :=
  let (w, inFlight) := p in
  match e with
  | TickFires =>
      if checkInterval (monitor w) then
        let (w1, sent) := monitorFire w in
        (w1, if sent then S inFlight else inFlight)
      else (w, inFlight)
  | AnswerArrives r =>
      match inFlight with
      | O => (w, O)
      | S n => (monitorAnswer r w, n)
      end
  end.

(** Any run of the monitor: ticks and answers in the order they happen, so
    that a tick may fire while earlier requests are still in flight. *)
Definition monitorRunAsync (es : list MonitorEvent) (p : World * nat) : World * nat :=
  fold_left (fun p e => monitorStep e p) es p.

(** ** Renderer *)

(** [colors[status] || '#6b7280']. *)
Definition getStatusColor (st : string) : string :=
  if String.eqb st "pending" then "#f59e0b"
  else if String.eqb st "uploading" then "#3b82f6"
  else if String.eqb st "processing" then "#8b5cf6"
  else if String.eqb st "completed" then "#22c55e"
  else if String.eqb st "failed" then "#ef4444"
  else "#6b7280".

(** [icons[status] || icons['pending']]. *)
Definition getStatusIcon (st : string) : Icon :=
  if String.eqb st "uploading" then IconUploading
  else if String.eqb st "processing" then IconProcessing
  else if String.eqb st "completed" then IconCompleted
  else if String.eqb st "failed" then IconFailed
  else IconPending.

(** [formatTimestamp], with the clock reading [now] of [new Date()]; the
    last case is [date.toLocaleString('en-US', options)]. *)
Definition formatTimestamp (now date : Z) : Timestamp :=
  let diffMs := now - date in
  let diffMins := diffMs / 60000 in
  if diffMins <? 1 then TimeText "Just now"
  else if diffMins <? 60 then
    let plural := if diffMins =? 1 then "" else "s" in
    TimeText (JS.Z_toString diffMins ++ " minute" ++ plural ++ " ago")%string
  else LocaleDateTime date.

Definition createJobCardHTML (now : Z) (job : Job) : Card :=
  let statusColor := getStatusColor (status job) in
  let statusIcon := getStatusIcon (status job) in
  let canDownload := String.eqb (status job) "completed" in
  let plural := if total_files job =? 1 then "" else "s" in
  mkCard (job_id job)
         statusColor
         statusIcon
         (status job)
         (formatTimestamp now (created_at job))
         (JS.Z_toString (total_files job) ++ " file" ++ plural)%string
         (if String.eqb (status job) "processing" || String.eqb (status job) "uploading"
          then Some (percent (progress job)) else None)
         (match message job with
          | Some (String c s) => Some (String c s)
          | _ => None
          end)
         (if canDownload then DownloadCSV (job_id job) else DisabledProcessing).

(** ** Job list synchronizer *)

(** The comparator of [renderJobs]:
    [new Date(b.created_at) - new Date(a.created_at)]. *)
Definition compareJobs (a b : Job) : Z := created_at b - created_at a.

(** [Array.prototype.sort] is stable: an element moves behind the elements
    it is compared greater than, and stays in front of its equals that came
    after it. *)
Fixpoint insertJob (a : Job) (sorted : list Job) : list Job :=
  match sorted with
  | [] => [a]
  | b :: rest =>
      if compareJobs a b <=? 0 then a :: b :: rest
      else b :: insertJob a rest
  end.

Fixpoint sortJobs (l : list Job) : list Job :=
  match l with
  | [] => []
  | a :: rest => insertJob a (sortJobs rest)
  end.

Definition set_historyList (cards : list Card) : World -> World :=
  set_history_ui (fun h =>
    mkHistoryView (historyLoading_hidden h) (historyEmpty_hidden h)
                  (historyList_hidden h) cards).

Definition renderJobs (now : Z) (w : World) : World :=
  let sortedJobs := sortJobs (jobs (state w)) in
  set_historyList (map (createJobCardHTML now) sortedJobs) w.

Definition showEmptyHistory (w : World) : World :=
  set_history_ui (fun h => mkHistoryView true false true (historyList h)) w.

(** [document.querySelector(`[data-job-id="${id}"]`)] followed by
    [replaceWith]: the first card with that id is replaced; [None] when no
    card has it. The id is compared as a string, which is what the selector
    does for an id that reads the same in the card's markup and in the
    selector ([selectorSafe] below); the results about the card patch are
    stated for such ids. *)
Fixpoint replaceCard (id : string) (c : Card) (cards : list Card) : option (list Card) :=
  match cards with
  | [] => None
  | d :: rest =>
      if String.eqb (data_job_id d) id then Some (c :: rest)
      else option_map (cons d) (replaceCard id c rest)
  end.

Fixpoint updateSpecificCards (now : Z) (jobsToUpdate : list Job) (w : World) : World :=
  match jobsToUpdate with
  | [] => w
  | job :: rest =>
      match replaceCard (job_id job) (createJobCardHTML now job)
                        (historyList (history_ui w)) with
      | Some cards => updateSpecificCards now rest (set_historyList cards w)
      | None => renderJobs now w
      end
  end.

(** [oldJobs.find(j => j.job_id === id)]. *)
Definition findJob (id : string) (l : list Job) : option Job :=
  find (fun j => String.eqb (job_id j) id) l.

Definition isActive (st : string) : bool :=
  String.eqb st "pending" || String.eqb st "uploading" || String.eqb st "processing".

(** The test that pushes [newJob] on [jobsToUpdate]. *)
Definition jobChanged (oldJob newJob : Job) : bool :=
  if isActive (status newJob) then
    JS.string_neq (status oldJob) (status newJob)
    || JS.number_neq (progress oldJob) (progress newJob)
    || JS.opt_string_neq (message oldJob) (message newJob)
  else JS.string_neq (status oldJob) (status newJob).

(** The [for] loop of [updateJobsSelectively] over the rest of [newJobs],
    with the [jobsToUpdate] collected so far: [None] when it reaches a job
    whose id the old cache lacks (the loop's early full re-render). *)
Fixpoint collectUpdates (oldJobs newJobs jobsToUpdate : list Job) : option (list Job) :=
  match newJobs with
  | [] => Some jobsToUpdate
  | newJob :: rest =>
      match findJob (job_id newJob) oldJobs with
      | None => None
      | Some oldJob =>
          collectUpdates oldJobs rest
            (if jobChanged oldJob newJob then jobsToUpdate ++ [newJob]
             else jobsToUpdate)
      end
  end.

Definition updateJobsSelectively (now : Z) (newJobs : list Job) (w : World) : World :=
  let oldJobs := jobs (state w) in
  let w := set_history_ui (fun h =>
             mkHistoryView true (historyEmpty_hidden h) (historyList_hidden h)
                           (historyList h)) w in
  if (List.length newJobs =? 0)%nat then showEmptyHistory w
  else
    let w := set_history_ui (fun h =>
               mkHistoryView (historyLoading_hidden h) true false (historyList h)) w in
    if negb (List.length oldJobs =? List.length newJobs)%nat then
      renderJobs now (set_jobs newJobs w)
    else
      match collectUpdates oldJobs newJobs [] with
      | None => renderJobs now (set_jobs newJobs w)
      | Some jobsToUpdate =>
          let w := set_jobs newJobs w in
          if (0 <? List.length jobsToUpdate)%nat then
            updateSpecificCards now jobsToUpdate w
          else w
      end.

(** The answer to [GET /api/jobs]: the request or the reading of its body is
    rejected, or a status comes with the [jobs] field of the body, if any. *)
Inductive ListResponse : Type :=
| ListRejected
| ListHttp (http_status : Z) (jobs_field : option (list Job)).

(** One synchronizer tick: [fetchJobs] with the answer to its request;
    [now] is the clock at rendering. *)
Definition fetchJobs (now : Z) (r : ListResponse) (w : World) : World :=
  match r with
  | ListRejected => showEmptyHistory w
  | ListHttp http_status data_jobs =>
      if negb (JS.response_ok http_status) then showEmptyHistory w
      else
        let newJobs := match data_jobs with Some l => l | None => [] end in
        updateJobsSelectively now newJobs w
  end.

(** ** The callbacks the page can run *)

Inductive Event : Type :=
| EvHandleFiles (files : list File)
| EvRemoveFile (index : nat)
| EvClearFiles
| EvUploadBegin
| EvUploadResume (r : UploadResponse)
| EvMonitorTick (r : StatusResponse)
| EvMonitorAnswer (r : StatusResponse)
| EvSettle
| EvFetchJobs (now : Z) (r : ListResponse).

Definition step (e : Event) (w : World) : World :=
  match e with
  | EvHandleFiles files => handleFiles files w
  | EvRemoveFile index => removeFile index w
  | EvClearFiles => clearFiles w
  | EvUploadBegin => fst (uploadFiles_begin w)
  | EvUploadResume r => uploadFiles_resume r w
  | EvMonitorTick r => monitorTick r w
  | EvMonitorAnswer r => monitorAnswer r w
  | EvSettle => settleFire w
  | EvFetchJobs now r => fetchJobs now r w
  end.

(** The world after the page ran the callbacks [es], in order. *)
Definition run (es : list Event) : World :=
  fold_left (fun w e => step e w) es initial_world.

(** ** What the specification calls things *)

(** The synchronizer takes the selective-patch path: a non-empty snapshot
    of the cache's size, every id of which the cache has. *)
Definition selectivePath (oldJobs newJobs : list Job) : bool :=
  negb (List.length newJobs =? 0)%nat
  && (List.length oldJobs =? List.length newJobs)%nat
  && forallb (fun n => match findJob (job_id n) oldJobs with
                       | Some _ => true | None => false end) newJobs.

(** The list a full re-render of a snapshot shows. *)
Definition fullRender (now : Z) (snapshot : list Job) : list Card :=
  map (createJobCardHTML now) (sortJobs snapshot).

(** The view is "selecting": the processing node hidden, the upload area
    shown, no job monitored. *)
Definition viewSelecting (w : World) : Prop :=
  processingStatus_hidden (status_ui w) = true
  /\ uploadArea_hidden (upload_ui w) = false
  /\ currentJobId (state w) = None.

(** Every cached job has a card in the view. *)
Definition cardsCover (w : World) : bool :=
  forallb (fun j => existsb (fun c => String.eqb (data_job_id c) (job_id j))
                            (historyList (history_ui w)))
          (jobs (state w)).

(** The upload request failed: it was rejected or answered with a status
    outside 200-299. *)
Definition uploadFailed (r : UploadResponse) : bool :=
  match r with
  | UploadRejected => true
  | UploadHttp http_status _ => negb (JS.response_ok http_status)
  end.

(** A status request failed, other than by a not-found answer: every way
    into the [catch] block of the interval callback. *)
Definition requestFails (r : StatusResponse) : bool :=
  match r with
  | StatusRejected => true
  | StatusHttp http_status body =>
      if JS.response_ok http_status then
        match body with None => true | Some _ => false end
      else negb (http_status =? 404)
  end.

Definition connectivityNotice : string :=
  "Lost connection to server. Please check processing history for updates.".

(** What a run of the monitor keeps true, whatever the answers: the counter
    stays below the threshold with no notice raised, or it is at the
    threshold and the monitor was abandoned. *)
Definition monitorInv (before : list string) (w : World) : Prop :=
  0 <= errorCount (monitor w)
  /\ ((errorCount (monitor w) < MAX_ERRORS /\ alerts w = before)
      \/ (errorCount (monitor w) = MAX_ERRORS
          /\ checkInterval (monitor w) = false
          /\ alerts w = connectivityNotice :: before
          /\ viewSelecting w)).

(** The card [document.querySelector(`[data-job-id="${id}"]`)] returns. *)
Definition findCard (id : string) (cards : list Card) : option Card :=
  find (fun c => String.eqb (data_job_id c) id) cards.

(** A job of the new snapshot is marked changed against the cache. *)
Definition changedIn (oldJobs : list Job) (newJob : Job) : bool :=
  match findJob (job_id newJob) oldJobs with
  | Some oldJob => jobChanged oldJob newJob
  | None => false
  end.





(** The specification's "differs" on two progress values, on the doubles
    themselves: they are not the same number when one of them is NaN or
    when they are not both zero and differ in sign, exponent or mantissa. *)
Definition specSameNumber (p q : float) : Prop :=
  match Prim2SF p, Prim2SF q with
  | S754_nan, _ | _, S754_nan => False
  | S754_zero _, S754_zero _ => True
  | a, b => a = b
  end.




(** The order of the history: newer jobs first. *)
Definition createdDesc (a b : Job) : Prop := created_at b <= created_at a.

(** The list endpoint gave no snapshot: the request was rejected or answered
    with a status outside 200-299. *)
Definition listFailed (r : ListResponse) : bool :=
  match r with
  | ListRejected => true
  | ListHttp http_status _ => negb (JS.response_ok http_status)
  end.

(** ** Sample worlds *)

(** Two jobs as the list endpoint reports them. *)
Definition job_a (st : string) (p : float) (msg : option string) : Job :=
  mkJob "a" st p msg 1700000060000 2.

Definition job_b (st : string) (msg : option string) : Job :=
  mkJob "b" st 1%float msg 1700000000000 1.

(** The clock of the sample ticks, two minutes after job a was created. *)
Definition sample_now : Z := 1700000180000.

(** The history after a first tick that listed [snapshot]. *)
Definition listed (snapshot : list Job) : World :=
  fetchJobs sample_now (ListHttp 200 (Some snapshot)) initial_world.

(** A selection of one file, ready for upload. *)
Definition one_file_selected : World :=
  handleFiles [mkFile "invoice.pdf" 1024] initial_world.

(** The upload request of that file has left. *)
Definition upload_sent : World := fst (uploadFiles_begin one_file_selected).

(** The upload was accepted as job "job-1": the monitor has started and has
    sent no request yet. *)
Definition monitoring_started : World :=
  uploadFiles_resume (UploadHttp 200 (Some "job-1")) upload_sent.

(** Five listed jobs, the third one pending with message [msg]. *)
Definition five_jobs (msg : option string) : list Job :=
  [ mkJob "j1" "completed" 1%float (Some "done") 1700000010000 3;
    mkJob "j2" "failed" 0.25%float (Some "unreadable file") 1700000020000 1;
    mkJob "j3" "pending" 0%float msg 1700000030000 2;
    mkJob "j4" "completed" 1%float None 1700000040000 5;
    mkJob "j5" "processing" 0.5%float (Some "page 3 of 6") 1700000050000 6 ].

(** ** Invariants of the views *)

(** A visible file list shows the selection: the selection is not empty, the
    action controls are visible, and the entries are those of the selected
    files, in order. *)
Definition fileListInv (w : World) : Prop :=
  fileList_hidden (upload_ui w) = false ->
  selectedFiles (state w) <> []
  /\ uploadActions_hidden (upload_ui w) = false
  /\ fileList_items (upload_ui w) = fileItems 0 (selectedFiles (state w)).

(** Exactly one of the upload area and the processing panel is visible. *)
Definition panelsExclusive (w : World) : Prop :=
  uploadArea_hidden (upload_ui w) = negb (processingStatus_hidden (status_ui w)).


(** A progress value is a number equal to itself (it is not NaN). *)
Definition isNumber (p : float) : bool := PrimFloat.eqb p p.

(** [v] differs from [w] at most in the monitored job id, the monitor's
    variables, the notices and the texts of the processing panel. *)
Definition sameOutsideMonitoring (w v : World) : Prop :=
  upload_ui v = upload_ui w
  /\ selectedFiles (state v) = selectedFiles (state w)
  /\ jobs (state v) = jobs (state w)
  /\ processingStatus_hidden (status_ui v) = processingStatus_hidden (status_ui w)
  /\ history_ui v = history_ui w.

(** The list endpoint answered with no job: an empty or absent [jobs]. *)
Definition listsNothing (r : ListResponse) : bool :=
  match r with
  | ListRejected => false
  | ListHttp http_status data_jobs =>
      JS.response_ok http_status
      && match data_jobs with
         | None | Some [] => true
         | Some (_ :: _) => false
         end
  end.

(** Two job lists agree, position by position, on id and creation time. *)
Definition sameIdsAndTimes (oldJobs newJobs : list Job) : Prop :=
  Forall2 (fun o n => job_id o = job_id n /\ created_at o = created_at n)
          oldJobs newJobs.

(** The world after the callbacks [es] ran, in order, from the world [w]. *)
Definition runFrom (w : World) (es : list Event) : World :=
  fold_left (fun v e => step e v) es w.


(** The rounded percentage of a progress value prints in plain decimal:
    it is NaN, an infinity, or an integer below 10^21 in absolute value
    (from 10^21 on JS prints a number in exponent notation, which
    [JS.Z_toString] does not do). *)
Definition plainPercent (p : float) : bool :=
  match JS.Math_round (PrimFloat.mul p 100%float) with
  | JS.RInt z => Z.abs z <? 10 ^ 21
  | _ => true
  end.

(** * Properties *)

(** ** Strings *)
Section Strings.

Lemma endsWith_lower_split (s suffix : string) :
  JS.endsWith (JS.toLowerCase s) suffix = true <->
  exists stem ext, s = (stem ++ ext)%string /\ JS.toLowerCase ext = suffix.
Proof.
  induction s as [|c s IH]; cbn [JS.toLowerCase JS.endsWith].
  - destruct (String.eqb_spec EmptyString suffix) as [E|E]; split.
    + intros _. exists EmptyString, EmptyString. split; [reflexivity|exact E].
    + reflexivity.
    + discriminate.
    + intros (stem & ext & Hs & Hl). exfalso. apply E.
      destruct stem; simpl in Hs; [subst ext; exact Hl|discriminate].
  - destruct (String.eqb_spec (String (JS.lower_char c) (JS.toLowerCase s)) suffix) as [E|E].
    + split; [intros _|reflexivity].
      exists EmptyString, (String c s). split; [reflexivity|exact E].
    + rewrite IH. split.
      * intros (stem & ext & Hs & Hl). exists (String c stem), ext.
        split; [simpl; now rewrite Hs|exact Hl].
      * intros (stem & ext & Hs & Hl). destruct stem as [|c' stem'].
        -- simpl in Hs. subst ext. simpl in Hl. contradiction.
        -- simpl in Hs. injection Hs as _ Hs. now exists stem', ext.
Qed.

(** The filter of [handleFiles] keeps exactly the names with a tail that
    reads ".pdf" once lowered. *)
Lemma isPdf_spec (f : File) :
  isPdf f = true <->
  exists stem ext, name f = (stem ++ ext)%string /\ JS.toLowerCase ext = ".pdf".
Proof. unfold isPdf. apply endsWith_lower_split. Qed.

End Strings.

(** ** Selection manager and upload coordinator *)
Section Selection.

Lemma length_zero_nil {A : Type} (l : list A) :
  (List.length l =? 0)%nat = true <-> l = [].
Proof.
  destruct l; simpl; split; intro H; try reflexivity; discriminate.
Qed.

Lemma renderFileList_state (w : World) : state (renderFileList w) = state w.
Proof. unfold renderFileList. now destruct (_ =? _)%nat. Qed.

Lemma resetUploadUI_selectedFiles (w : World) :
  selectedFiles (state (resetUploadUI w)) = [].
Proof. unfold resetUploadUI. now rewrite renderFileList_state. Qed.

Lemma resetUploadUI_viewSelecting (w : World) : viewSelecting (resetUploadUI w).
Proof.
  unfold viewSelecting, resetUploadUI, renderFileList. simpl. repeat split.
Qed.

(** C8. [handleFiles] accepts exactly the entries whose name ends in ".pdf"
    compared case-insensitively; when none is left it raises the notice and
    changes neither the state nor the selection view; a mix of one .pdf and
    one .txt keeps the .pdf alone. *)
Theorem handleFiles_accepts_only_pdf (files : list File) (w : World) :
  let pdfFiles := filter isPdf files in
  (forall f, In f pdfFiles <->
             In f files /\
             exists stem ext, name f = (stem ++ ext)%string /\ JS.toLowerCase ext = ".pdf")
  /\ (pdfFiles = [] ->
      state (handleFiles files w) = state w
      /\ upload_ui (handleFiles files w) = upload_ui w
      /\ alerts (handleFiles files w) = "Please select PDF files only" :: alerts w)
  /\ (pdfFiles <> [] ->
      selectedFiles (state (handleFiles files w)) = pdfFiles
      /\ alerts (handleFiles files w) = alerts w)
  /\ selectedFiles (state (handleFiles [mkFile "a.pdf" 10; mkFile "b.txt" 20] w))
     = [mkFile "a.pdf" 10]
  /\ selectedFiles (state (handleFiles [mkFile "SCAN.PDF" 10; mkFile "pdf" 1] w))
     = [mkFile "SCAN.PDF" 10].
Proof.
  intros pdfFiles.
  assert (Hempty : pdfFiles = [] ->
                   handleFiles files w = alert "Please select PDF files only" w).
  { intros H. unfold handleFiles. fold pdfFiles. now rewrite H. }
  assert (Hsome : pdfFiles <> [] ->
                  handleFiles files w = renderFileList (set_selectedFiles pdfFiles w)).
  { intros H. unfold handleFiles. fold pdfFiles.
    destruct (List.length pdfFiles =? 0)%nat eqn:E; [|reflexivity].
    apply length_zero_nil in E. contradiction. }
  split; [|split; [|split; [|split]]].
  - intros f. unfold pdfFiles. rewrite filter_In, isPdf_spec. reflexivity.
  - intros H. rewrite (Hempty H). repeat split.
  - intros H. rewrite (Hsome H). rewrite renderFileList_state. split; [reflexivity|].
    unfold renderFileList. now destruct (_ =? _)%nat.
  - reflexivity.
  - reflexivity.
Qed.

(** C10. With at least one valid entry, [handleFiles] replaces the whole
    selection by the filtered files: what was selected before, also by an
    earlier call, is gone. *)
Theorem handleFiles_replaces_selection (files : list File) (w : World)
  (Hvalid : exists f, In f files /\ isPdf f = true) :
  selectedFiles (state (handleFiles files w)) = filter isPdf files
  /\ forall earlier,
       selectedFiles (state (handleFiles files (handleFiles earlier w)))
       = filter isPdf files.
Proof.
  assert (Hany : forall w', selectedFiles (state (handleFiles files w')) = filter isPdf files).
  { intros w'. unfold handleFiles.
    destruct (List.length (filter isPdf files) =? 0)%nat eqn:E.
    - apply length_zero_nil in E. destruct Hvalid as (f & Hin & Hpdf).
      assert (Hf : In f (filter isPdf files)) by (apply filter_In; tauto).
      rewrite E in Hf. contradiction.
    - now rewrite renderFileList_state. }
  split; [apply Hany|intros earlier; apply Hany].
Qed.

Lemma handleFiles_replaces_selection_witness :
  selectedFiles (state (handleFiles [mkFile "new.pdf" 3]
                          (handleFiles [mkFile "old.pdf" 1; mkFile "older.pdf" 2]
                                       initial_world)))
  = [mkFile "new.pdf" 3].
Proof.
  apply (handleFiles_replaces_selection [mkFile "new.pdf" 3]).
  exists (mkFile "new.pdf" 3). split; [simpl; tauto|reflexivity].
Defined.

(** C7, as stated, fails: after the synchronous part of [uploadFiles] the
    selection still holds the submitted file. *)
Lemma uploadFiles_keeps_selection_counterexample :
  selectedFiles (state one_file_selected) <> []
  /\ selectedFiles (state (fst (uploadFiles_begin one_file_selected))) <> [].
Proof. split; discriminate. Qed.

(** C7, amended. Starting an upload leaves the selection as it is: the files
    go into the request and only the selection view is hidden. The selection
    is emptied by an explicit clear and by every reset of the upload UI: a
    failed upload and the reset that follows a terminal job. *)
Theorem selection_cleared_on_reset_not_on_upload_start (w : World) :
  selectedFiles (state (fst (uploadFiles_begin w))) = selectedFiles (state w)
  /\ (selectedFiles (state w) <> [] ->
      snd (uploadFiles_begin w) = Some (selectedFiles (state w))
      /\ fileList_hidden (upload_ui (fst (uploadFiles_begin w))) = true
      /\ processingStatus_hidden (status_ui (fst (uploadFiles_begin w))) = false)
  /\ selectedFiles (state (clearFiles w)) = []
  /\ selectedFiles (state (resetUploadUI w)) = []
  /\ (forall r, uploadFailed r = true ->
                selectedFiles (state (uploadFiles_resume r w)) = [])
  /\ (settleTimeout (monitor w) = true ->
      selectedFiles (state (settleFire w)) = []).
Proof.
  split; [|split; [|split; [|split; [|split]]]].
  - unfold uploadFiles_begin. now destruct (_ =? _)%nat.
  - intros Hne. unfold uploadFiles_begin.
    destruct (List.length (selectedFiles (state w)) =? 0)%nat eqn:E.
    + apply length_zero_nil in E. contradiction.
    + repeat split.
  - unfold clearFiles. now rewrite renderFileList_state.
  - apply resetUploadUI_selectedFiles.
  - intros r Hr. destruct r as [|s id]; cbn [uploadFailed uploadFiles_resume] in *.
    + apply resetUploadUI_selectedFiles.
    + destruct (JS.response_ok s); [discriminate|apply resetUploadUI_selectedFiles].
  - intros Ht. unfold settleFire. rewrite Ht. apply resetUploadUI_selectedFiles.
Qed.

End Selection.

(** ** Active job monitor *)
Section MonitorProperties.

Lemma resetUploadUI_monitor (w : World) : monitor (resetUploadUI w) = monitor w.
Proof. unfold resetUploadUI, renderFileList. now destruct (_ =? _)%nat. Qed.

Lemma resetUploadUI_alerts (w : World) : alerts (resetUploadUI w) = alerts w.
Proof. unfold resetUploadUI, renderFileList. now destruct (_ =? _)%nat. Qed.

Lemma resetUploadUI_jobs (w : World) : jobs (state (resetUploadUI w)) = jobs (state w).
Proof. unfold resetUploadUI. now rewrite renderFileList_state. Qed.

Lemma monitoring_error_count (w : World) :
  errorCount (monitor (monitoring_error w)) = errorCount (monitor w) + 1.
Proof.
  unfold monitoring_error. cbn [set_errorCount set_monitor monitor errorCount].
  destruct (MAX_ERRORS <=? _); [rewrite resetUploadUI_monitor|]; reflexivity.
Qed.

(** A tick that finds the interval scheduled and a job id runs on with the
    answer. *)
Lemma monitorTick_answer (r : StatusResponse) (w : World) :
  checkInterval (monitor w) = true ->
  truthy (currentJobId (state w)) = true ->
  monitorTick r w = monitorAnswer r w.
Proof.
  intros Hrun Hid. unfold monitorTick, monitorFire. now rewrite Hrun, Hid.
Qed.

(** A tick is the interval firing followed at once by its answer. *)
Lemma monitorTick_serial (r : StatusResponse) (w : World) :
  monitorTick r w = fst (monitorRunAsync [TickFires; AnswerArrives r] (w, 0%nat)).
Proof.
  unfold monitorTick, monitorRunAsync, monitorStep, monitorFire. cbn [fold_left negb].
  destruct (checkInterval (monitor w)); cbn [negb]; [|reflexivity].
  destruct (truthy (currentJobId (state w))); reflexivity.
Qed.

(** An answer that goes through the [catch] block. *)
Lemma monitorAnswer_failure (r : StatusResponse) (w : World) :
  requestFails r = true -> monitorAnswer r w = monitoring_error w.
Proof.
  intros Hfail. destruct r as [|s body]; [reflexivity|].
  cbn [requestFails monitorAnswer] in *.
  destruct (JS.response_ok s); cbn [negb].
  - destruct body; [discriminate|reflexivity].
  - destruct (s =? 404); [discriminate|reflexivity].
Qed.

(** An answer with a job record. *)
Lemma monitorAnswer_success (w : World) (s : Z) (job : Job) :
  JS.response_ok s = true ->
  monitorAnswer (StatusHttp s (Some job)) w =
  let w1 := showJobStatus job (set_errorCount 0 w) in
  if isTerminal (status job) then setTimeout_reset (clearInterval w1) else w1.
Proof. intros Hok. cbn [monitorAnswer]. now rewrite Hok. Qed.

Lemma monitoring_error_inv (before : list string) (w : World) :
  0 <= errorCount (monitor w) < MAX_ERRORS -> alerts w = before ->
  monitorInv before (monitoring_error w).
Proof.
  intros Hc Ha. unfold monitorInv, monitoring_error.
  cbn [set_errorCount set_monitor monitor errorCount].
  destruct (Z.leb_spec MAX_ERRORS (errorCount (monitor w) + 1)) as [Hge|Hlt].
  - rewrite resetUploadUI_monitor, resetUploadUI_alerts. cbn.
    split; [lia|right]. split; [unfold MAX_ERRORS in *; lia|].
    split; [reflexivity|]. split; [now rewrite Ha|apply resetUploadUI_viewSelecting].
  - cbn. split; [lia|left]. split; [exact Hlt|exact Ha].
Qed.

Lemma monitorTick_inv (before : list string) (r : StatusResponse) (w : World) :
  monitorInv before w -> monitorInv before (monitorTick r w).
Proof.
  intros Hinv. unfold monitorTick, monitorFire.
  destruct (checkInterval (monitor w)) eqn:Hrun; cbn [negb]; [|exact Hinv].
  destruct Hinv as [Hpos [[Hlt Ha]|(_ & Hstop & _)]]; [|congruence].
  assert (Hreset : monitorInv before (resetUploadUI (clearInterval w))).
  { unfold monitorInv. rewrite resetUploadUI_monitor, resetUploadUI_alerts. cbn.
    split; [exact Hpos|left; split; assumption]. }
  destruct (truthy (currentJobId (state w))).
  - destruct r as [|http body]; cbn [monitorAnswer].
    + apply monitoring_error_inv; [lia|exact Ha].
    + destruct (JS.response_ok http); cbn [negb].
      * destruct body as [job|]; [|apply monitoring_error_inv; [lia|exact Ha]].
        unfold monitorInv.
        destruct (isTerminal (status job)); cbn;
          (split; [lia|left; split; [unfold MAX_ERRORS; lia|exact Ha]]).
      * destruct (http =? 404); [exact Hreset|].
        apply monitoring_error_inv; [lia|exact Ha].
  - unfold monitorInv. cbn. split; [exact Hpos|left; split; assumption].
Qed.

Lemma monitorRun_inv (before : list string) (rs : list StatusResponse) (w : World) :
  monitorInv before w -> monitorInv before (monitorRun rs w).
Proof.
  revert w. induction rs as [|r rs IH]; intros w Hinv; [exact Hinv|].
  cbn [monitorRun fold_left]. apply IH. now apply monitorTick_inv.
Qed.

Lemma not_cons_self {A : Type} (x : A) (l : list A) : l <> x :: l.
Proof.
  intros H. apply (f_equal (@List.length A)) in H. simpl in H. lia.
Qed.

(** C3, as stated, fails twice. With answers slower than the ticks, four
    requests are in flight when the failures come back: the counter goes to
    4 and the notice is raised at 3 and again at 4. And two failures followed
    by a success do stop the polling when that success reports a completed
    job. *)
Lemma monitor_threshold_counterexample :
  (let w' := fst (monitorRunAsync
                    [TickFires; TickFires; TickFires; TickFires;
                     AnswerArrives (StatusHttp 500 None);
                     AnswerArrives (StatusHttp 500 None);
                     AnswerArrives (StatusHttp 500 None);
                     AnswerArrives (StatusHttp 500 None)]
                    (monitoring_started, 0%nat)) in
   errorCount (monitor w') = 4
   /\ alerts w' = [connectivityNotice; connectivityNotice])
  /\ (let w' := monitorRun [StatusHttp 500 None; StatusRejected;
                            StatusHttp 200 (Some (job_a "completed" 1%float None))]
                           monitoring_started in
      errorCount (monitor w') = 0
      /\ alerts w' = []
      /\ checkInterval (monitor w') = false).
Proof. cbn zeta. repeat split. Qed.

(** C3, amended. Each failed status answer (not a not-found one) adds one to
    the consecutive-error counter and each answer with a job record sets it
    to zero. A failed answer that brings the counter to 3 or more clears the
    interval, raises the connectivity notice and puts the view back to
    selecting; one that leaves it below 3 does nothing else. When every
    answer comes before the next tick fires, the counter never passes 3 and
    the monitor is abandoned exactly when it is at 3. Two failures followed
    by a success leave the counter at zero with no notice; the polling then
    goes on unless the answered job is terminal, which clears the interval
    for the settle delay. *)
Theorem monitor_error_threshold (w0 : World) :
  (forall w r,
      requestFails r = true ->
      let w' := monitorAnswer r w in
      errorCount (monitor w') = errorCount (monitor w) + 1
      /\ (errorCount (monitor w) + 1 < 3 ->
          w' = set_errorCount (errorCount (monitor w) + 1) w)
      /\ (3 <= errorCount (monitor w) + 1 ->
          checkInterval (monitor w') = false
          /\ alerts w' = connectivityNotice :: alerts w
          /\ viewSelecting w'))
  /\ (forall w s job,
      JS.response_ok s = true ->
      let w' := monitorAnswer (StatusHttp s (Some job)) w in
      errorCount (monitor w') = 0 /\ alerts w' = alerts w)
  /\ (forall rs,
      let w' := monitorRun rs (startJobMonitoring w0) in
      0 <= errorCount (monitor w') <= 3
      /\ (alerts w' = alerts w0 \/ alerts w' = connectivityNotice :: alerts w0)
      /\ ((checkInterval (monitor w') = false
           /\ alerts w' = connectivityNotice :: alerts w0
           /\ viewSelecting w')
          <-> errorCount (monitor w') = 3))
  /\ (forall f1 f2 s job,
      truthy (currentJobId (state w0)) = true ->
      requestFails f1 = true -> requestFails f2 = true ->
      JS.response_ok s = true ->
      let w' := monitorRun [f1; f2; StatusHttp s (Some job)] (startJobMonitoring w0) in
      errorCount (monitor w') = 0
      /\ alerts w' = alerts w0
      /\ (isTerminal (status job) = false -> checkInterval (monitor w') = true)
      /\ (isTerminal (status job) = true ->
          checkInterval (monitor w') = false /\ settleTimeout (monitor w') = true)).
Proof.
  split; [|split; [|split]].
  - intros w r Hfail w'. subst w'. rewrite (monitorAnswer_failure r w Hfail).
    split; [apply monitoring_error_count|].
    unfold monitoring_error. cbn [set_errorCount set_monitor monitor errorCount].
    unfold MAX_ERRORS.
    destruct (Z.leb_spec 3 (errorCount (monitor w) + 1)) as [Hge|Hlt].
    + split; [lia|]. intros _.
      rewrite resetUploadUI_monitor, resetUploadUI_alerts.
      split; [reflexivity|]. split; [reflexivity|apply resetUploadUI_viewSelecting].
    + split; [reflexivity|lia].
  - intros w s job Hok w'. subst w'. rewrite (monitorAnswer_success w s job Hok).
    cbn zeta. now destruct (isTerminal (status job)).
  - intros rs w'.
    assert (Hinv : monitorInv (alerts w0) w').
    { apply monitorRun_inv. unfold monitorInv. cbn.
      split; [lia|left; split; [unfold MAX_ERRORS; lia|reflexivity]]. }
    unfold monitorInv, MAX_ERRORS in Hinv.
    destruct Hinv as [Hpos [[Hlt Ha]|(Hmax & Hstop & Ha & Hview)]].
    + split; [lia|]. split; [now left|]. split.
      * intros (_ & Ha' & _). rewrite Ha in Ha'. now apply not_cons_self in Ha'.
      * lia.
    + split; [lia|]. split; [now right|]. split; [intros _; exact Hmax|].
      intros _. repeat split; try assumption; apply Hview.
  - intros f1 f2 s job Hid Hf1 Hf2 Hok w'. subst w'.
    cbn [monitorRun fold_left].
    set (w1 := startJobMonitoring w0).
    assert (H1 : monitorTick f1 w1 = set_errorCount 1 w1).
    { rewrite (monitorTick_answer f1 w1 eq_refl Hid).
      rewrite (monitorAnswer_failure f1 w1 Hf1). reflexivity. }
    rewrite H1.
    assert (H2 : monitorTick f2 (set_errorCount 1 w1) = set_errorCount 2 w1).
    { rewrite (monitorTick_answer f2 (set_errorCount 1 w1) eq_refl Hid).
      rewrite (monitorAnswer_failure f2 (set_errorCount 1 w1) Hf2). reflexivity. }
    rewrite H2.
    rewrite (monitorTick_answer _ (set_errorCount 2 w1) eq_refl Hid).
    rewrite (monitorAnswer_success (set_errorCount 2 w1) s job Hok).
    cbn zeta. destruct (isTerminal (status job)); cbn; repeat split; discriminate.
Qed.

(** C4. A 404 answer stops the monitor at once and puts the view back to
    selecting: its continuation clears the interval and resets the upload UI
    in one go, schedules no settle timer, raises no notice and leaves the
    error counter alone, whatever the counter is; so does the very first
    tick of a monitor whose request is answered 404. *)
Theorem monitor_not_found_stops_immediately (w : World) (body : option Job) :
  let w' := monitorAnswer (StatusHttp 404 body) w in
  (checkInterval (monitor w') = false
   /\ viewSelecting w'
   /\ errorCount (monitor w') = errorCount (monitor w)
   /\ settleTimeout (monitor w') = settleTimeout (monitor w)
   /\ alerts w' = alerts w
   /\ selectedFiles (state w') = [])
  /\ (checkInterval (monitor w) = true ->
      truthy (currentJobId (state w)) = true ->
      monitorTick (StatusHttp 404 body) w = w').
Proof.
  cbn zeta. split.
  - change (monitorAnswer (StatusHttp 404 body) w) with (resetUploadUI (clearInterval w)).
    rewrite resetUploadUI_monitor, resetUploadUI_alerts, resetUploadUI_selectedFiles.
    repeat split; apply resetUploadUI_viewSelecting.
  - intros Hrun Hid. now apply monitorTick_answer.
Qed.

(** The very first status request of a monitor is answered 404. *)
Lemma monitor_not_found_stops_immediately_witness :
  let w' := monitorTick (StatusHttp 404 None) monitoring_started in
  checkInterval (monitor w') = false
  /\ viewSelecting w'
  /\ errorCount (monitor w') = 0
  /\ settleTimeout (monitor w') = false
  /\ alerts w' = []
  /\ selectedFiles (state w') = [].
Proof.
  cbn zeta.
  rewrite (proj2 (monitor_not_found_stops_immediately monitoring_started None)
             eq_refl eq_refl).
  exact (proj1 (monitor_not_found_stops_immediately monitoring_started None)).
Defined.

End MonitorProperties.

(** ** Progress percentage *)
Section Percentage.

(** [Math.round] of a finite double n * 2^e is the integer nearest to it,
    the half-way case going up. *)
Lemma Math_round_nearest (x : float) (s : bool) (m : positive) (e : Z) :
  Prim2SF x = S754_finite s m e ->
  let n := if s then Z.neg m else Z.pos m in
  exists z, JS.Math_round x = JS.RInt z
            /\ (0 <= e -> z = n * 2 ^ e)
            /\ (e < 0 -> (2 * z - 1) * 2 ^ (- e) <= 2 * n < (2 * z + 1) * 2 ^ (- e)).
Proof.
  intros Hx n. unfold JS.Math_round. rewrite Hx. fold n.
  destruct (Z.leb_spec 0 e) as [Hge|Hlt].
  - exists (n * 2 ^ e). split; [reflexivity|]. split; [reflexivity|lia].
  - exists ((2 * n + 2 ^ (- e)) / 2 ^ (- e + 1)).
    split; [reflexivity|]. split; [lia|]. intros _.
    assert (Hp : 0 < 2 ^ (- e)) by (apply Z.pow_pos_nonneg; lia).
    assert (Hs : 2 ^ (- e + 1) = 2 * 2 ^ (- e)).
    { rewrite Z.pow_add_r by lia. rewrite Z.pow_1_r. lia. }
    rewrite Hs.
    set (p := 2 ^ (- e)) in *.
    pose proof (Z.div_mod (2 * n + p) (2 * p) ltac:(lia)) as Hdm.
    pose proof (Z.mod_pos_bound (2 * n + p) (2 * p) ltac:(lia)) as Hb.
    set (q := (2 * n + p) / (2 * p)) in *.
    set (r := (2 * n + p) mod (2 * p)) in *.
    split; nia.
Qed.

(** C9. For a job whose rounded percentage prints in plain decimal (every
    progress between 0 and 1 does), the percentage shown is
    [Math.round(progress * 100)] followed by "%", in the monitor's display,
    whenever an answer brings the job, and in the cards that show a progress
    bar (status processing or uploading; the other cards show none). The
    rounding is to the nearest integer of the double product, not a
    truncation: 0.5 shows 50%, 0.999 shows 100% and 0.994 shows 99%. *)
Theorem progress_percentage_rounds (job : Job) (now : Z)
  (Hplain : plainPercent (progress job) = true) :
  (forall w s,
      JS.response_ok s = true ->
      let w' := monitorAnswer (StatusHttp s (Some job)) w in
      progressText (status_ui w') = percent (progress job)
      /\ progressFill_width (status_ui w') = percent (progress job))
  /\ (status job = "processing" \/ status job = "uploading" ->
      card_progress (createJobCardHTML now job) = Some (percent (progress job)))
  /\ (status job <> "processing" -> status job <> "uploading" ->
      card_progress (createJobCardHTML now job) = None)
  /\ (forall s m e,
      Prim2SF (PrimFloat.mul (progress job) 100%float) = S754_finite s m e ->
      let n := if s then Z.neg m else Z.pos m in
      exists z,
        percent (progress job) = (JS.Z_toString z ++ "%")%string
        /\ Z.abs z < 10 ^ 21
        /\ (0 <= e -> z = n * 2 ^ e)
        /\ (e < 0 -> (2 * z - 1) * 2 ^ (- e) <= 2 * n < (2 * z + 1) * 2 ^ (- e)))
  /\ (Prim2SF (PrimFloat.mul (progress job) 100%float) = S754_nan ->
      percent (progress job) = "NaN%")
  /\ plainPercent 0.5%float = true /\ percent 0.5%float = "50%"
  /\ plainPercent 0.999%float = true /\ percent 0.999%float = "100%"
  /\ plainPercent 0.994%float = true /\ percent 0.994%float = "99%".
Proof.
  split; [|split; [|split; [|split; [|split]]]].
  - intros w s Hok w'. subst w'. rewrite (monitorAnswer_success w s job Hok). cbn zeta.
    now destruct (isTerminal (status job)).
  - intros [H|H]; unfold createJobCardHTML; cbn [card_progress]; rewrite H; reflexivity.
  - intros Hp Hu. unfold createJobCardHTML. cbn [card_progress].
    destruct (String.eqb_spec (status job) "processing"); [contradiction|].
    destruct (String.eqb_spec (status job) "uploading"); [contradiction|reflexivity].
  - intros s m e Hx n.
    destruct (Math_round_nearest _ s m e Hx) as (z & Hz & Hge & Hlt).
    exists z. unfold plainPercent in Hplain. rewrite Hz in Hplain.
    apply Z.ltb_lt in Hplain.
    split; [unfold percent; now rewrite Hz|]. split; [exact Hplain|]. split; assumption.
  - intros Hx. unfold percent, JS.Math_round. now rewrite Hx.
  - repeat split; vm_compute; reflexivity.
Qed.

End Percentage.

(** ** Job list synchronizer *)
Section Synchronizer.

Lemma findJob_Some (id : string) (l : list Job) (o : Job) :
  findJob id l = Some o -> In o l /\ job_id o = id.
Proof.
  unfold findJob. intros H. apply find_some in H.
  destruct H as [Hin Heq]. split; [exact Hin|now apply String.eqb_eq].
Qed.

Lemma findJob_NoDup (l : list Job) (o : Job) :
  NoDup (map job_id l) -> In o l -> findJob (job_id o) l = Some o.
Proof.
  unfold findJob. induction l as [|j l IH]; simpl; intros Hnd Hin; [contradiction|].
  inversion Hnd as [|x xs Hnotin Hnd']; subst.
  destruct Hin as [->|Hin].
  - now rewrite String.eqb_refl.
  - destruct (String.eqb_spec (job_id j) (job_id o)) as [E|E]; [|now apply IH].
    exfalso. apply Hnotin. rewrite E. now apply in_map.
Qed.

Lemma NoDup_map_inj {A B : Type} (f : A -> B) (l : list A) (x y : A) :
  NoDup (map f l) -> In x l -> In y l -> f x = f y -> x = y.
Proof.
  induction l as [|a l IH]; simpl; intros Hnd Hx Hy Hf; [contradiction|].
  inversion Hnd as [|b bs Hnotin Hnd']; subst.
  destruct Hx as [->|Hx], Hy as [->|Hy]; auto.
  - exfalso. apply Hnotin. rewrite Hf. now apply in_map.
  - exfalso. apply Hnotin. rewrite <- Hf. now apply in_map.
Qed.

(** The loop of [updateJobsSelectively], in closed form. *)
Lemma collectUpdates_closed (oldJobs newJobs acc : list Job) :
  collectUpdates oldJobs newJobs acc =
  if forallb (fun n => match findJob (job_id n) oldJobs with
                       | Some _ => true | None => false end) newJobs
  then Some (acc ++ filter (changedIn oldJobs) newJobs)
  else None.
Proof.
  revert acc. induction newJobs as [|n rest IH]; intros acc; simpl.
  - now rewrite app_nil_r.
  - unfold changedIn at 1.
    destruct (findJob (job_id n) oldJobs) as [o|]; simpl; [|reflexivity].
    rewrite IH. destruct (forallb _ rest); [|reflexivity].
    destruct (jobChanged o n); [|reflexivity].
    now rewrite <- app_assoc.
Qed.

Lemma insertJob_perm (a : Job) (l : list Job) : Permutation (insertJob a l) (a :: l).
Proof.
  induction l as [|b l IH]; simpl; [reflexivity|].
  destruct (compareJobs a b <=? 0); [reflexivity|].
  rewrite IH. apply perm_swap.
Qed.

Lemma sortJobs_perm (l : list Job) : Permutation (sortJobs l) l.
Proof.
  induction l as [|a l IH]; simpl; [reflexivity|].
  rewrite insertJob_perm. now constructor.
Qed.

Lemma createJobCardHTML_id (now : Z) (job : Job) :
  data_job_id (createJobCardHTML now job) = job_id job.
Proof. reflexivity. Qed.

Lemma fullRender_ids (now : Z) (l : list Job) :
  map data_job_id (fullRender now l) = map job_id (sortJobs l).
Proof. unfold fullRender. rewrite map_map. reflexivity. Qed.

Lemma updateSpecificCards_state (now : Z) (js : list Job) (w : World) :
  state (updateSpecificCards now js w) = state w.
Proof.
  revert w. induction js as [|j js IH]; intros w; simpl; [reflexivity|].
  destruct (replaceCard _ _ _); [now rewrite IH|reflexivity].
Qed.

Lemma selectivePath_true (oldJobs newJobs : list Job) :
  selectivePath oldJobs newJobs = true <->
  newJobs <> [] /\ List.length oldJobs = List.length newJobs
  /\ forall n, In n newJobs -> exists o, findJob (job_id n) oldJobs = Some o.
Proof.
  unfold selectivePath. rewrite !andb_true_iff, negb_true_iff, Nat.eqb_eq, forallb_forall.
  split.
  - intros [[Hne Hlen] Hall]. repeat split; [|exact Hlen|].
    + intros ->. discriminate.
    + intros n Hn. specialize (Hall n Hn).
      destruct (findJob (job_id n) oldJobs) as [o|]; [now exists o|discriminate].
  - intros (Hne & Hlen & Hall). repeat split; [|exact Hlen|].
    + destruct newJobs; [contradiction|reflexivity].
    + intros n Hn. destruct (Hall n Hn) as [o ->]. reflexivity.
Qed.

(** Off the selective path, with a non-empty snapshot: a full re-render. *)
Lemma updateJobsSelectively_full (now : Z) (newJobs : list Job) (w : World) :
  newJobs <> [] ->
  selectivePath (jobs (state w)) newJobs = false ->
  historyList (history_ui (updateJobsSelectively now newJobs w)) = fullRender now newJobs
  /\ jobs (state (updateJobsSelectively now newJobs w)) = newJobs
  /\ historyList_hidden (history_ui (updateJobsSelectively now newJobs w)) = false.
Proof.
  intros Hne Hpath. unfold updateJobsSelectively, selectivePath in *.
  destruct (List.length newJobs =? 0)%nat eqn:E0.
  { apply length_zero_nil in E0. contradiction. }
  cbn [negb andb] in Hpath. cbn [set_history_ui state jobs].
  destruct (List.length (jobs (state w)) =? List.length newJobs)%nat; cbn [negb].
  - rewrite collectUpdates_closed. cbn [andb] in Hpath. rewrite Hpath.
    repeat split.
  - repeat split.
Qed.

(** On the selective path: the cache is replaced and the changed jobs are
    handed to [updateSpecificCards]. *)
Lemma updateJobsSelectively_selective (now : Z) (newJobs : list Job) (w : World) :
  selectivePath (jobs (state w)) newJobs = true ->
  updateJobsSelectively now newJobs w =
  updateSpecificCards now (filter (changedIn (jobs (state w))) newJobs)
    (set_jobs newJobs
       (set_history_ui (fun h => mkHistoryView true true false (historyList h)) w)).
Proof.
  intros Hpath. unfold updateJobsSelectively, selectivePath in *.
  apply andb_true_iff in Hpath. destruct Hpath as [Hpath Hall].
  apply andb_true_iff in Hpath. destruct Hpath as [Hne Hlen].
  apply negb_true_iff in Hne. rewrite Hne.
  cbn [set_history_ui state jobs]. rewrite Hlen. cbn [negb].
  rewrite collectUpdates_closed, Hall. cbn [app].
  destruct (filter (changedIn (jobs (state w))) newJobs) as [|j js]; reflexivity.
Qed.

Lemma insertJob_HdRel (b a : Job) (l : list Job) :
  createdDesc b a -> HdRel createdDesc b l -> HdRel createdDesc b (insertJob a l).
Proof.
  intros Hba Hl. destruct l as [|c l]; simpl; [now constructor|].
  destruct (compareJobs a c <=? 0); constructor; [exact Hba|].
  now inversion Hl.
Qed.

Lemma insertJob_sorted (a : Job) (l : list Job) :
  Sorted createdDesc l -> Sorted createdDesc (insertJob a l).
Proof.
  induction l as [|b l IH]; simpl; intros Hs.
  - repeat constructor.
  - destruct (Z.leb_spec (compareJobs a b) 0) as [Hle|Hgt].
    + constructor; [exact Hs|]. constructor.
      unfold createdDesc, compareJobs in *. lia.
    + apply Sorted_inv in Hs. destruct Hs as [Hs Hhd].
      constructor; [now apply IH|].
      apply insertJob_HdRel; [|exact Hhd].
      unfold createdDesc, compareJobs in *. lia.
Qed.

Lemma sortJobs_sorted (l : list Job) : Sorted createdDesc (sortJobs l).
Proof.
  induction l as [|a l IH]; simpl; [constructor|now apply insertJob_sorted].
Qed.

Lemma monitorAnswer_jobs (r : StatusResponse) (w : World) :
  jobs (state (monitorAnswer r w)) = jobs (state w).
Proof.
  assert (Herr : jobs (state (monitoring_error w)) = jobs (state w)).
  { unfold monitoring_error. destruct (MAX_ERRORS <=? _); [|reflexivity].
    now rewrite resetUploadUI_jobs. }
  destruct r as [|http body]; cbn [monitorAnswer]; [exact Herr|].
  destruct (JS.response_ok http); cbn [negb].
  - destruct body as [job|]; [|exact Herr].
    now destruct (isTerminal (status job)).
  - destruct (http =? 404); [now rewrite resetUploadUI_jobs|exact Herr].
Qed.

Lemma monitorTick_jobs (r : StatusResponse) (w : World) :
  jobs (state (monitorTick r w)) = jobs (state w).
Proof.
  unfold monitorTick, monitorFire.
  destruct (checkInterval (monitor w)); cbn [negb]; [|reflexivity].
  destruct (truthy (currentJobId (state w))); [apply monitorAnswer_jobs|reflexivity].
Qed.

Lemma updateJobsSelectively_jobs (now : Z) (newJobs : list Job) (w : World) :
  newJobs <> [] -> jobs (state (updateJobsSelectively now newJobs w)) = newJobs.
Proof.
  intros Hne.
  destruct (selectivePath (jobs (state w)) newJobs) eqn:Hpath.
  - rewrite (updateJobsSelectively_selective now newJobs w Hpath).
    now rewrite updateSpecificCards_state.
  - now apply updateJobsSelectively_full.
Qed.

(** C2, as stated, fails: a tick that receives the empty snapshot leaves the
    cached job in place. *)
Lemma empty_snapshot_keeps_cache_counterexample :
  jobs (state (fetchJobs sample_now (ListHttp 200 (Some []))
                 (listed [job_b "completed" None])))
  <> [].
Proof. vm_compute. discriminate. Qed.

(** C2, amended. A tick that receives a non-empty snapshot replaces the cache
    by it, on every path; a tick that receives the empty snapshot, or no
    snapshot, leaves the cache as it was; the monitor's callbacks never write
    the cache. *)
Theorem cache_replaced_by_nonempty_snapshot (now : Z) (w : World) :
  (forall s newJobs,
      JS.response_ok s = true -> newJobs <> [] ->
      jobs (state (fetchJobs now (ListHttp s (Some newJobs)) w)) = newJobs)
  /\ (forall s body,
      JS.response_ok s = true -> body = None \/ body = Some [] ->
      jobs (state (fetchJobs now (ListHttp s body) w)) = jobs (state w))
  /\ (forall r, listFailed r = true ->
                jobs (state (fetchJobs now r w)) = jobs (state w))
  /\ (forall r, jobs (state (monitorTick r w)) = jobs (state w))
  /\ jobs (state (settleFire w)) = jobs (state w).
Proof.
  split; [|split; [|split; [|split]]].
  - intros s newJobs Hok Hne. unfold fetchJobs. rewrite Hok. cbn [negb].
    now apply updateJobsSelectively_jobs.
  - intros s body Hok Hbody. unfold fetchJobs. rewrite Hok. cbn [negb].
    destruct Hbody as [->| ->]; reflexivity.
  - intros r Hr. destruct r as [|s body]; cbn [listFailed fetchJobs] in *.
    + reflexivity.
    + rewrite Hr. reflexivity.
  - intros r. apply monitorTick_jobs.
  - unfold settleFire. destruct (settleTimeout (monitor w)); [|reflexivity].
    now rewrite resetUploadUI_jobs.
Qed.

(** C5. A tick with a non-empty snapshot whose size differs from the
    cache's, or with a job id the cache lacks, re-renders in full: the cache
    becomes the snapshot and the visible list becomes the cards of the
    snapshot's jobs, newest first. *)
Theorem full_rerender_on_count_or_id_change
  (now : Z) (s : Z) (newJobs : list Job) (w : World)
  (Hok : JS.response_ok s = true)
  (Hne : newJobs <> [])
  (Hdiff : List.length (jobs (state w)) <> List.length newJobs
           \/ exists n, In n newJobs /\ findJob (job_id n) (jobs (state w)) = None) :
  let w' := fetchJobs now (ListHttp s (Some newJobs)) w in
  historyList (history_ui w') = map (createJobCardHTML now) (sortJobs newJobs)
  /\ Permutation (sortJobs newJobs) newJobs
  /\ Sorted createdDesc (sortJobs newJobs)
  /\ jobs (state w') = newJobs
  /\ historyList_hidden (history_ui w') = false.
Proof.
  intros w'. subst w'. unfold fetchJobs. rewrite Hok. cbn [negb].
  assert (Hpath : selectivePath (jobs (state w)) newJobs = false).
  { destruct (selectivePath (jobs (state w)) newJobs) eqn:E; [|reflexivity].
    apply selectivePath_true in E. destruct E as (_ & Hlen & Hall).
    destruct Hdiff as [Hd|(n & Hn & Hnone)]; [contradiction|].
    destruct (Hall n Hn) as [o Ho]. congruence. }
  destruct (updateJobsSelectively_full now newJobs w Hne Hpath) as (Hl & Hj & Hh).
  split; [exact Hl|]. split; [apply sortJobs_perm|]. split; [apply sortJobs_sorted|].
  split; assumption.
Qed.

(** The cache holds jobs a and b; the snapshot brings a third job. *)
Lemma full_rerender_on_count_or_id_change_witness :
  let newJobs := [job_b "completed" None; job_a "processing" 0.5%float None;
                  mkJob "c" "pending" 0%float None 1700000120000 4] in
  let w' := fetchJobs sample_now (ListHttp 200 (Some newJobs))
              (listed [job_a "pending" 0%float None; job_b "completed" None]) in
  historyList (history_ui w') = map (createJobCardHTML sample_now) (sortJobs newJobs)
  /\ Permutation (sortJobs newJobs) newJobs
  /\ Sorted createdDesc (sortJobs newJobs)
  /\ jobs (state w') = newJobs
  /\ historyList_hidden (history_ui w') = false.
Proof.
  apply (full_rerender_on_count_or_id_change sample_now 200).
  - reflexivity.
  - discriminate.
  - left. vm_compute. discriminate.
Defined.

(** *** Replacing one card *)

Lemma replaceCard_Some (id : string) (c : Card) (cards : list Card) :
  In id (map data_job_id cards) -> exists cards', replaceCard id c cards = Some cards'.
Proof.
  induction cards as [|d rest IH]; simpl; intros Hin; [contradiction|].
  destruct (String.eqb_spec (data_job_id d) id) as [E|E]; [eauto|].
  destruct Hin as [Hd|Hin]; [contradiction|].
  destruct (IH Hin) as [cards' ->]. simpl. eauto.
Qed.

Lemma replaceCard_ids (id : string) (c : Card) (cards cards' : list Card) :
  data_job_id c = id -> replaceCard id c cards = Some cards' ->
  map data_job_id cards' = map data_job_id cards.
Proof.
  intros Hc. revert cards'. induction cards as [|d rest IH]; simpl; intros cards' H.
  - discriminate.
  - destruct (String.eqb_spec (data_job_id d) id) as [E|E].
    + injection H as <-. simpl. congruence.
    + destruct (replaceCard id c rest) as [rest'|]; [|discriminate].
      injection H as <-. simpl. f_equal. now apply IH.
Qed.

(** A card with another id stays where it is. *)
Lemma replaceCard_others (id : string) (c : Card) (cards cards' : list Card) :
  replaceCard id c cards = Some cards' ->
  forall i d, nth_error cards i = Some d -> data_job_id d <> id ->
              nth_error cards' i = Some d.
Proof.
  revert cards'. induction cards as [|d0 rest IH]; simpl; intros cards' H i d Hi Hd.
  - discriminate.
  - destruct (String.eqb_spec (data_job_id d0) id) as [E|E].
    + injection H as <-. destruct i as [|i]; simpl in *; [|exact Hi].
      injection Hi as ->. contradiction.
    + destruct (replaceCard id c rest) as [rest'|]; [|discriminate].
      injection H as <-. destruct i as [|i]; simpl in *; [exact Hi|].
      now apply (IH rest' eq_refl i d).
Qed.

Lemma replaceCard_found (id : string) (c : Card) (cards cards' : list Card) :
  data_job_id c = id -> replaceCard id c cards = Some cards' ->
  findCard id cards' = Some c.
Proof.
  intros Hc. unfold findCard. revert cards'.
  induction cards as [|d rest IH]; simpl; intros cards' H.
  - discriminate.
  - destruct (String.eqb_spec (data_job_id d) id) as [E|E].
    + injection H as <-. simpl. rewrite Hc. now rewrite String.eqb_refl.
    + destruct (replaceCard id c rest) as [rest'|]; [|discriminate].
      injection H as <-. simpl.
      destruct (String.eqb_spec (data_job_id d) id); [contradiction|now apply IH].
Qed.

Lemma replaceCard_found_other (id id' : string) (c : Card) (cards cards' : list Card) :
  data_job_id c = id -> id' <> id -> replaceCard id c cards = Some cards' ->
  findCard id' cards' = findCard id' cards.
Proof.
  intros Hc Hne. unfold findCard. revert cards'.
  induction cards as [|d rest IH]; simpl; intros cards' H.
  - discriminate.
  - destruct (String.eqb_spec (data_job_id d) id) as [E|E].
    + injection H as <-. simpl. rewrite Hc.
      destruct (String.eqb_spec id id') as [E'|E']; [congruence|].
      destruct (String.eqb_spec (data_job_id d) id'); [congruence|reflexivity].
    + destruct (replaceCard id c rest) as [rest'|]; [|discriminate].
      injection H as <-. simpl.
      destruct (String.eqb (data_job_id d) id'); [reflexivity|now apply IH].
Qed.

(** *** Replacing the cards of a list of jobs whose cards are all there *)

Lemma updateSpecificCards_patch (now : Z) (js : list Job) (w : World) :
  (forall j, In j js -> In (job_id j) (map data_job_id (historyList (history_ui w)))) ->
  let w' := updateSpecificCards now js w in
  map data_job_id (historyList (history_ui w')) = map data_job_id (historyList (history_ui w))
  /\ (forall i c, nth_error (historyList (history_ui w)) i = Some c ->
                  (forall j, In j js -> job_id j <> data_job_id c) ->
                  nth_error (historyList (history_ui w')) i = Some c)
  /\ (forall id, (forall j, In j js -> job_id j <> id) ->
                 findCard id (historyList (history_ui w')) =
                 findCard id (historyList (history_ui w)))
  /\ (NoDup (map job_id js) ->
      forall j, In j js ->
                findCard (job_id j) (historyList (history_ui w')) =
                Some (createJobCardHTML now j)).
Proof.
  revert w. induction js as [|j0 js IH]; intros w Hcover; cbn zeta.
  - simpl. repeat split; auto. intros _ j [].
  - cbn [updateSpecificCards].
    destruct (replaceCard_Some (job_id j0) (createJobCardHTML now j0)
                (historyList (history_ui w)) (Hcover j0 (or_introl eq_refl)))
      as [cards Hcards].
    rewrite Hcards.
    pose proof (replaceCard_ids _ _ _ _ (createJobCardHTML_id now j0) Hcards) as Hids.
    set (w1 := set_historyList cards w).
    assert (Hcover1 : forall j, In j js ->
              In (job_id j) (map data_job_id (historyList (history_ui w1)))).
    { intros j Hj. cbn. rewrite Hids. apply Hcover. now right. }
    destruct (IH w1 Hcover1) as (IHids & IHnth & IHfind & IHnew).
    change (historyList (history_ui w1)) with cards in *.
    split; [congruence|]. split; [|split].
    + intros i c Hi Hother. apply IHnth.
      * apply (replaceCard_others _ _ _ _ Hcards i c Hi).
        intros E. apply (Hother j0 (or_introl eq_refl)). now symmetry.
      * intros j Hj. apply Hother. now right.
    + intros id Hother. rewrite IHfind by (intros j Hj; apply Hother; now right).
      apply (replaceCard_found_other _ _ _ _ _ (createJobCardHTML_id now j0)); [|exact Hcards].
      intros E. apply (Hother j0 (or_introl eq_refl)). now symmetry.
    + intros Hnd j Hj. inversion Hnd as [|x xs Hnotin Hnd']; subst.
      destruct Hj as [<-|Hj]; [|now apply IHnew].
      rewrite IHfind.
      * apply (replaceCard_found _ _ _ _ (createJobCardHTML_id now j0) Hcards).
      * intros j Hj E. apply Hnotin. rewrite <- E. now apply in_map.
Qed.

(** *** Marking *)








Lemma cardsCover_In (w : World) :
  cardsCover w = true ->
  forall j, In j (jobs (state w)) ->
            In (job_id j) (map data_job_id (historyList (history_ui w))).
Proof.
  unfold cardsCover. rewrite forallb_forall. intros H j Hj.
  specialize (H j Hj). apply existsb_exists in H. destruct H as (c & Hc & E).
  apply String.eqb_eq in E. rewrite <- E. now apply in_map.
Qed.




(** A changed progress alone marks an active job, and marks no terminal
    one. *)
Example progress_change_marks_active_job_only :
  let oldJobs := five_jobs None in
  filter (changedIn oldJobs)
    [ mkJob "j1" "completed" 0.5%float (Some "done") 1700000010000 3;
      mkJob "j5" "processing" 0.75%float (Some "page 3 of 6") 1700000050000 6 ]
  = [ mkJob "j5" "processing" 0.75%float (Some "page 3 of 6") 1700000050000 6 ]
  /\ ~ specSameNumber 0.5%float 0.75%float
  /\ specSameNumber 0.5%float 0.5%float.
Proof.
  split; [vm_compute; reflexivity|]. split.
  - vm_compute. intros H. discriminate H.
  - vm_compute. reflexivity.
Qed.

(** The spec's example: of five cards only the pending job's is replaced,
    and here the patched list is the one a full re-render would show. *)
Example one_changed_message_patches_one_card :
  let w := listed (five_jobs (Some "queued")) in
  let newJobs := five_jobs (Some "waiting for a worker") in
  filter (changedIn (jobs (state w))) newJobs
  = [mkJob "j3" "pending" 0%float (Some "waiting for a worker") 1700000030000 2]
  /\ historyList (history_ui (updateJobsSelectively sample_now newJobs w))
     = fullRender sample_now newJobs.
Proof. split; vm_compute; reflexivity. Qed.

(** *** Selective patch against full re-render *)





(** *** The view never loses the card of a cached job *)

Lemma cardsCover_intro (w : World) :
  (forall j, In j (jobs (state w)) ->
             In (job_id j) (map data_job_id (historyList (history_ui w)))) ->
  cardsCover w = true.
Proof.
  intros H. unfold cardsCover. apply forallb_forall. intros j Hj.
  specialize (H j Hj). apply in_map_iff in H. destruct H as (c & E & Hc).
  apply existsb_exists. exists c. split; [exact Hc|]. now apply String.eqb_eq.
Qed.

(** Every synchronizer tick keeps [cardsCover]: it holds of the page as
    loaded, so the fall-back of [updateSpecificCards] to a full re-render is
    never taken by the ticks alone. *)
Lemma cardsCover_fetchJobs (now : Z) (r : ListResponse) (w : World) :
  cardsCover w = true -> cardsCover (fetchJobs now r w) = true.
Proof.
  intros Hcov. destruct r as [|s body]; cbn [fetchJobs]; [exact Hcov|].
  destruct (JS.response_ok s); cbn [negb]; [|exact Hcov].
  set (newJobs := match body with Some l => l | None => [] end).
  destruct newJobs as [|n0 rest] eqn:Enew; [exact Hcov|]. rewrite <- Enew.
  assert (Hne : newJobs <> []) by (rewrite Enew; discriminate).
  clear Enew. apply cardsCover_intro.
  rewrite (updateJobsSelectively_jobs now newJobs w Hne). intros j Hj.
  destruct (selectivePath (jobs (state w)) newJobs) eqn:Hpath.
  - pose proof Hpath as Hp. apply selectivePath_true in Hp.
    destruct Hp as (_ & _ & Hall).
    rewrite (updateJobsSelectively_selective now newJobs w Hpath).
    set (w1 := set_jobs newJobs _).
    assert (Hold : forall n, In n newJobs ->
              In (job_id n) (map data_job_id (historyList (history_ui w1)))).
    { intros n Hn. destruct (Hall n Hn) as [o Ho]. apply findJob_Some in Ho.
      destruct Ho as [Hin <-]. now apply (cardsCover_In w Hcov). }
    assert (Hcover : forall n, In n (filter (changedIn (jobs (state w))) newJobs) ->
              In (job_id n) (map data_job_id (historyList (history_ui w1)))).
    { intros n Hn. apply filter_In in Hn. now apply Hold. }
    destruct (updateSpecificCards_patch now _ w1 Hcover) as (Pids & _).
    rewrite Pids. now apply Hold.
  - destruct (updateJobsSelectively_full now newJobs w Hne Hpath) as (Hl & _).
    rewrite Hl, fullRender_ids. apply in_map.
    now apply (Permutation_in _ (Permutation_sym (sortJobs_perm newJobs))).
Qed.

Lemma cardsCover_initial : cardsCover initial_world = true.
Proof. reflexivity. Qed.

Lemma monitorAnswer_history (r : StatusResponse) (w : World) :
  history_ui (monitorAnswer r w) = history_ui w.
Proof.
  assert (Hreset : forall v, history_ui (resetUploadUI v) = history_ui v).
  { intros v. unfold resetUploadUI, renderFileList. now destruct (_ =? _)%nat. }
  assert (Herr : history_ui (monitoring_error w) = history_ui w).
  { unfold monitoring_error. destruct (MAX_ERRORS <=? _); [|reflexivity].
    now rewrite Hreset. }
  destruct r as [|http body]; cbn [monitorAnswer]; [exact Herr|].
  destruct (JS.response_ok http); cbn [negb].
  - destruct body as [job|]; [|exact Herr].
    now destruct (isTerminal (status job)).
  - destruct (http =? 404); [now rewrite Hreset|exact Herr].
Qed.

Lemma cardsCover_monitorAnswer (r : StatusResponse) (w : World) :
  cardsCover w = true -> cardsCover (monitorAnswer r w) = true.
Proof. unfold cardsCover. now rewrite monitorAnswer_history, monitorAnswer_jobs. Qed.

Lemma cardsCover_monitorTick (r : StatusResponse) (w : World) :
  cardsCover w = true -> cardsCover (monitorTick r w) = true.
Proof.
  intros Hcov. unfold monitorTick, monitorFire.
  destruct (checkInterval (monitor w)); cbn [negb]; [|exact Hcov].
  destruct (truthy (currentJobId (state w))); [|exact Hcov].
  now apply cardsCover_monitorAnswer.
Qed.

Lemma renderFileList_history (w : World) : history_ui (renderFileList w) = history_ui w.
Proof. unfold renderFileList. now destruct (_ =? _)%nat. Qed.

Lemma resetUploadUI_history (w : World) : history_ui (resetUploadUI w) = history_ui w.
Proof. unfold resetUploadUI. now rewrite renderFileList_history. Qed.

(** Whatever callbacks ran, every cached job has its card in the view. *)
Lemma cardsCover_run (es : list Event) : cardsCover (run es) = true.
Proof.
  unfold run. generalize cardsCover_initial. generalize initial_world.
  induction es as [|e es IH]; intros w Hcov; [exact Hcov|].
  cbn [fold_left]. apply IH.
  assert (Hframe : forall v, history_ui v = history_ui w ->
                             jobs (state v) = jobs (state w) ->
                             cardsCover v = true).
  { intros v Hh Hj. unfold cardsCover. now rewrite Hh, Hj. }
  destruct e as [files|index| | |r|r|r| |now r]; cbn [step].
  - apply Hframe; unfold handleFiles; destruct (_ =? _)%nat;
      rewrite ?renderFileList_history, ?renderFileList_state; reflexivity.
  - apply Hframe; unfold removeFile;
      rewrite ?renderFileList_history, ?renderFileList_state; reflexivity.
  - apply Hframe; unfold clearFiles;
      rewrite ?renderFileList_history, ?renderFileList_state; reflexivity.
  - apply Hframe; unfold uploadFiles_begin; now destruct (_ =? _)%nat.
  - apply Hframe; unfold uploadFiles_resume; destruct r as [|s id];
      try destruct (JS.response_ok s);
      rewrite ?resetUploadUI_history, ?resetUploadUI_jobs; reflexivity.
  - now apply cardsCover_monitorTick.
  - now apply cardsCover_monitorAnswer.
  - apply Hframe; unfold settleFire; destruct (settleTimeout (monitor w));
      rewrite ?resetUploadUI_history, ?resetUploadUI_jobs; reflexivity.
  - now apply cardsCover_fetchJobs.
Qed.

End Synchronizer.

(** ** The theorems at work on the sample worlds *)

(** Only a .txt file is offered while a file is selected: the notice, and
    nothing else changes. *)
Lemma handleFiles_accepts_only_pdf_witness :
  state (handleFiles [mkFile "notes.txt" 5] one_file_selected) = state one_file_selected
  /\ upload_ui (handleFiles [mkFile "notes.txt" 5] one_file_selected)
     = upload_ui one_file_selected
  /\ alerts (handleFiles [mkFile "notes.txt" 5] one_file_selected)
     = "Please select PDF files only" :: alerts one_file_selected.
Proof.
  exact (proj1 (proj2 (handleFiles_accepts_only_pdf
                         [mkFile "notes.txt" 5] one_file_selected)) eq_refl).
Defined.

(** The selected file goes into the request and stays selected. *)
Lemma selection_cleared_on_reset_not_on_upload_start_witness :
  snd (uploadFiles_begin one_file_selected) = Some [mkFile "invoice.pdf" 1024]
  /\ fileList_hidden (upload_ui upload_sent) = true
  /\ processingStatus_hidden (status_ui upload_sent) = false.
Proof.
  apply (proj1 (proj2 (selection_cleared_on_reset_not_on_upload_start one_file_selected))).
  discriminate.
Defined.

(** Three failures in a row, each answered before the next tick: the
    counter is at 3 and the monitor is abandoned. *)
Lemma monitor_error_threshold_witness :
  let w' := monitorRun [StatusHttp 500 None; StatusRejected; StatusHttp 503 None]
                       monitoring_started in
  checkInterval (monitor w') = false
  /\ alerts w' = [connectivityNotice]
  /\ viewSelecting w'.
Proof.
  apply (proj2 (proj2 (proj2 (proj1 (proj2 (proj2
           (monitor_error_threshold (set_currentJobId (Some "job-1") upload_sent))))
           [StatusHttp 500 None; StatusRejected; StatusHttp 503 None])))).
  reflexivity.
Defined.

(** A 500, a rejected request, then an answer with a processing job: the
    counter is back at zero and the polling goes on. *)
Example two_failures_then_success_keeps_polling :
  let w' := monitorRun [StatusHttp 500 None; StatusRejected;
                        StatusHttp 200 (Some (job_a "processing" 0.5%float None))]
                       monitoring_started in
  errorCount (monitor w') = 0
  /\ alerts w' = []
  /\ checkInterval (monitor w') = true.
Proof. cbn zeta. repeat split. Qed.

(** Two failures in a row are absorbed: the counter is at 2, no notice. *)
Example two_failures_are_absorbed :
  let w' := monitorRun [StatusHttp 500 None; StatusRejected] monitoring_started in
  errorCount (monitor w') = 2
  /\ alerts w' = []
  /\ checkInterval (monitor w') = true
  /\ processingStatus_hidden (status_ui w') = false.
Proof. cbn zeta. repeat split. Qed.

(** Three failures in a row: the monitor is abandoned. *)
Example three_failures_abandon_monitoring :
  let w' := monitorRun [StatusHttp 500 None; StatusRejected; StatusHttp 503 None]
                       monitoring_started in
  errorCount (monitor w') = 3
  /\ checkInterval (monitor w') = false
  /\ alerts w' = [connectivityNotice]
  /\ viewSelecting w'.
Proof. cbn zeta. unfold viewSelecting. repeat split. Qed.

(** A completed answer after two failures: the monitor settles, and the
    view goes back to selecting when the timer fires. *)
Example completed_after_two_failures_settles :
  let w' := monitorRun [StatusRejected; StatusHttp 502 None;
                        StatusHttp 200 (Some (job_a "completed" 1%float None))]
                       monitoring_started in
  errorCount (monitor w') = 0
  /\ alerts w' = []
  /\ checkInterval (monitor w') = false
  /\ settleTimeout (monitor w') = true
  /\ processingStatus_hidden (status_ui w') = false
  /\ statusTitle (status_ui w') = "Completed"
  /\ progressText (status_ui w') = "100%"
  /\ viewSelecting (settleFire w').
Proof. cbn zeta. unfold viewSelecting. repeat split. Qed.

(** The monitor shows 100% for a progress of 0.999. *)
Lemma progress_percentage_rounds_witness :
  let job := job_a "processing" 0.999%float None in
  let w' := monitorAnswer (StatusHttp 200 (Some job)) monitoring_started in
  progressText (status_ui w') = "100%"
  /\ progressFill_width (status_ui w') = "100%".
Proof.
  exact (proj1 (progress_percentage_rounds (job_a "processing" 0.999%float None)
                  sample_now eq_refl)
           monitoring_started 200 eq_refl).
Defined.

(** A snapshot of five jobs replaces a cache of one. *)
Lemma cache_replaced_by_nonempty_snapshot_witness :
  jobs (state (fetchJobs sample_now (ListHttp 200 (Some (five_jobs None)))
                 (listed [job_b "completed" None])))
  = five_jobs None.
Proof.
  apply (proj1 (cache_replaced_by_nonempty_snapshot
                  sample_now (listed [job_b "completed" None]))).
  - reflexivity.
  - discriminate.
Defined.

(** * Further properties of the script *)

(** ** Selection manager *)
Section SelectionExtras.

Lemma splice1_firstn_skipn {A : Type} (index : nat) (l : list A) :
  splice1 index l = firstn index l ++ skipn (S index) l.
Proof.
  revert index. induction l as [|x l IH]; intros [|i]; simpl; try reflexivity.
  now rewrite IH.
Qed.

Lemma renderFileList_inv (w : World) : fileListInv (renderFileList w).
Proof.
  unfold fileListInv, renderFileList.
  destruct (List.length (selectedFiles (state w)) =? 0)%nat eqn:E; cbn.
  - discriminate.
  - intros _. split; [|split; reflexivity].
    intros H. rewrite H in E. discriminate.
Qed.

(** X1. [removeFile] takes out the entry at the index and nothing else: the
    files before it and after it stay, in order; an index past the end
    removes nothing. The view follows: controls hidden when nothing is left,
    else the list re-rendered from the remaining files. *)
Theorem removeFile_removes_one (index : nat) (w : World) :
  let files := selectedFiles (state w) in
  let w' := removeFile index w in
  selectedFiles (state w') = firstn index files ++ skipn (S index) files
  /\ ((index < List.length files)%nat ->
      S (List.length (selectedFiles (state w'))) = List.length files)
  /\ ((List.length files <= index)%nat -> selectedFiles (state w') = files)
  /\ (selectedFiles (state w') = [] ->
      fileList_hidden (upload_ui w') = true
      /\ uploadActions_hidden (upload_ui w') = true)
  /\ (selectedFiles (state w') <> [] ->
      fileList_hidden (upload_ui w') = false
      /\ uploadActions_hidden (upload_ui w') = false
      /\ fileList_items (upload_ui w') = fileItems 0 (selectedFiles (state w')))
  /\ currentJobId (state w') = currentJobId (state w)
  /\ jobs (state w') = jobs (state w).
Proof.
  intros files w'.
  assert (Hsel : selectedFiles (state w') = firstn index files ++ skipn (S index) files).
  { subst w'. unfold removeFile. rewrite renderFileList_state. cbn.
    apply splice1_firstn_skipn. }
  split; [exact Hsel|]. split; [|split; [|split; [|split; [|split]]]].
  - intros Hlt. rewrite Hsel, length_app, length_firstn, length_skipn. lia.
  - intros Hge. rewrite Hsel, firstn_all2 by exact Hge.
    rewrite skipn_all2 by lia. apply app_nil_r.
  - intros Hnil. subst w'. unfold removeFile in *.
    rewrite renderFileList_state in Hnil. unfold renderFileList.
    rewrite Hnil. cbn. split; reflexivity.
  - intros Hne. subst w'. unfold removeFile in *.
    rewrite renderFileList_state in Hne |- *. unfold renderFileList.
    destruct (List.length _ =? 0)%nat eqn:E; cbn.
    + apply length_zero_nil in E. contradiction.
    + repeat split.
  - subst w'. unfold removeFile. now rewrite renderFileList_state.
  - subst w'. unfold removeFile. now rewrite renderFileList_state.
Qed.

(** Three files are selected and the middle one is removed. *)
Lemma removeFile_removes_one_witness :
  S (List.length (selectedFiles (state
       (removeFile 1 (handleFiles [mkFile "a.pdf" 1; mkFile "b.pdf" 2; mkFile "c.pdf" 3]
                                  initial_world)))))
  = 3%nat.
Proof.
  apply (proj1 (proj2 (removeFile_removes_one 1
           (handleFiles [mkFile "a.pdf" 1; mkFile "b.pdf" 2; mkFile "c.pdf" 3]
                        initial_world)))).
  vm_compute. lia.
Defined.

End SelectionExtras.

(** ** What each callback leaves alone *)
Section Frames.

Lemma sameOutsideMonitoring_refl (w : World) : sameOutsideMonitoring w w.
Proof. repeat split. Qed.

(** An answer to the monitor is a change of the monitoring data, possibly
    followed by [resetUploadUI]. *)
Lemma monitorAnswer_shape (r : StatusResponse) (w : World) :
  exists v, sameOutsideMonitoring w v
            /\ (monitorAnswer r w = v \/ monitorAnswer r w = resetUploadUI v).
Proof.
  assert (Herr : exists v, sameOutsideMonitoring w v
            /\ (monitoring_error w = v \/ monitoring_error w = resetUploadUI v)).
  { unfold monitoring_error. destruct (MAX_ERRORS <=? _).
    - eexists; split; [|right; reflexivity]; repeat split.
    - eexists; split; [|left; reflexivity]; repeat split. }
  destruct r as [|http body]; cbn [monitorAnswer]; [exact Herr|].
  destruct (JS.response_ok http); cbn [negb].
  - destruct body as [job|]; [|exact Herr].
    destruct (isTerminal (status job));
      (eexists; split; [|left; reflexivity]; repeat split).
  - destruct (http =? 404); [|exact Herr].
    eexists; split; [|right; reflexivity]; repeat split.
Qed.

(** So is a monitor tick. *)
Lemma monitorTick_shape (r : StatusResponse) (w : World) :
  exists v, sameOutsideMonitoring w v
            /\ (monitorTick r w = v \/ monitorTick r w = resetUploadUI v).
Proof.
  unfold monitorTick, monitorFire.
  destruct (checkInterval (monitor w)); cbn [negb];
    [|exists w; split; [apply sameOutsideMonitoring_refl|now left]].
  destruct (truthy (currentJobId (state w))); [apply monitorAnswer_shape|].
  eexists; split; [|left; reflexivity]; repeat split.
Qed.

Lemma settleFire_shape (w : World) :
  exists v, sameOutsideMonitoring w v
            /\ (settleFire w = v \/ settleFire w = resetUploadUI v).
Proof.
  unfold settleFire. destruct (settleTimeout (monitor w)).
  - eexists; split; [|right; reflexivity]; repeat split.
  - exists w; split; [apply sameOutsideMonitoring_refl|now left].
Qed.

Lemma uploadFiles_resume_shape (r : UploadResponse) (w : World) :
  exists v, sameOutsideMonitoring w v
            /\ (uploadFiles_resume r w = v \/ uploadFiles_resume r w = resetUploadUI v).
Proof.
  unfold uploadFiles_resume. destruct r as [|s id].
  - eexists; split; [|right; reflexivity]; repeat split.
  - destruct (JS.response_ok s).
    + eexists; split; [|left; reflexivity]; repeat split.
    + eexists; split; [|right; reflexivity]; repeat split.
Qed.

Lemma updateSpecificCards_frame (now : Z) (js : list Job) (w : World) :
  let w' := updateSpecificCards now js w in
  upload_ui w' = upload_ui w /\ status_ui w' = status_ui w
  /\ monitor w' = monitor w /\ alerts w' = alerts w.
Proof.
  revert w. induction js as [|j js IH]; intros w; cbn zeta; simpl; [repeat split|].
  destruct (replaceCard _ _ _) as [cards|]; [|repeat split].
  destruct (IH (set_historyList cards w)) as (H1 & H2 & H3 & H4).
  repeat split; assumption.
Qed.

Lemma updateJobsSelectively_frame (now : Z) (newJobs : list Job) (w : World) :
  let w' := updateJobsSelectively now newJobs w in
  upload_ui w' = upload_ui w /\ status_ui w' = status_ui w
  /\ monitor w' = monitor w /\ alerts w' = alerts w
  /\ selectedFiles (state w') = selectedFiles (state w)
  /\ currentJobId (state w') = currentJobId (state w).
Proof.
  cbn zeta. unfold updateJobsSelectively.
  destruct (List.length newJobs =? 0)%nat; [repeat split|].
  cbn [set_history_ui state jobs].
  destruct (negb _); [repeat split|].
  destruct (collectUpdates _ _ _) as [js|]; [|repeat split].
  destruct (0 <? List.length js)%nat; [|repeat split].
  match goal with |- context [updateSpecificCards now js ?v] =>
    destruct (updateSpecificCards_frame now js v) as (H1 & H2 & H3 & H4);
    rewrite H1, H2, H3, H4, (updateSpecificCards_state now js v) end.
  repeat split.
Qed.

Lemma fetchJobs_frame (now : Z) (r : ListResponse) (w : World) :
  let w' := fetchJobs now r w in
  upload_ui w' = upload_ui w /\ status_ui w' = status_ui w
  /\ monitor w' = monitor w /\ alerts w' = alerts w
  /\ selectedFiles (state w') = selectedFiles (state w)
  /\ currentJobId (state w') = currentJobId (state w).
Proof.
  cbn zeta. destruct r as [|s body]; cbn [fetchJobs]; [repeat split|].
  destruct (negb _); [repeat split|]. apply updateJobsSelectively_frame.
Qed.

(** X2. The two polling loops write disjoint parts of the page: a
    synchronizer tick never touches the selection, the monitored job id, the
    upload and processing nodes, the monitor's counter and timers, or the
    notices; a monitor tick never touches the job cache or the history
    nodes. *)
Theorem polling_loops_write_disjoint_parts (w : World) :
  (forall now r,
      let w' := fetchJobs now r w in
      upload_ui w' = upload_ui w /\ status_ui w' = status_ui w
      /\ monitor w' = monitor w /\ alerts w' = alerts w
      /\ selectedFiles (state w') = selectedFiles (state w)
      /\ currentJobId (state w') = currentJobId (state w))
  /\ (forall r,
      let w' := monitorTick r w in
      jobs (state w') = jobs (state w) /\ history_ui w' = history_ui w).
Proof.
  split.
  - intros now r. apply fetchJobs_frame.
  - intros r. cbn zeta. split; [apply monitorTick_jobs|].
    destruct (monitorTick_shape r w) as (v & (_ & _ & _ & _ & Hh) & [-> | ->]).
    + exact Hh.
    + now rewrite resetUploadUI_history.
Qed.

End Frames.

(** ** Invariants over every sequence of callbacks *)
Section RunInvariants.

Lemma runFrom_invariant (P : World -> Prop) :
  (forall e w, P w -> P (step e w)) ->
  forall es w, P w -> P (runFrom w es).
Proof.
  intros Hstep es. unfold runFrom.
  induction es as [|e es IH]; intros w Hw; [exact Hw|].
  cbn [fold_left]. apply IH. now apply Hstep.
Qed.

Lemma fileListInv_same (w v : World) :
  upload_ui v = upload_ui w -> selectedFiles (state v) = selectedFiles (state w) ->
  fileListInv w -> fileListInv v.
Proof. unfold fileListInv. intros -> ->. trivial. Qed.

Lemma resetUploadUI_fileListInv (w : World) : fileListInv (resetUploadUI w).
Proof. unfold resetUploadUI. apply renderFileList_inv. Qed.

Lemma fileListInv_step (e : Event) (w : World) : fileListInv w -> fileListInv (step e w).
Proof.
  intros Hinv.
  assert (Hshape : forall w',
            (exists v, sameOutsideMonitoring w v /\ (w' = v \/ w' = resetUploadUI v)) ->
            fileListInv w').
  { intros w' (v & (Hu & Hs & _) & [-> | ->]).
    - now apply (fileListInv_same w).
    - apply resetUploadUI_fileListInv. }
  destruct e as [files|index| | |r|r|r| |now r]; cbn [step].
  - unfold handleFiles. destruct (_ =? _)%nat; [exact Hinv|apply renderFileList_inv].
  - apply renderFileList_inv.
  - apply renderFileList_inv.
  - unfold uploadFiles_begin. destruct (_ =? _)%nat; [exact Hinv|].
    unfold fileListInv. cbn. discriminate.
  - apply Hshape, uploadFiles_resume_shape.
  - apply Hshape, monitorTick_shape.
  - apply Hshape, monitorAnswer_shape.
  - apply Hshape, settleFire_shape.
  - destruct (fetchJobs_frame now r w) as (Hu & _ & _ & _ & Hs & _).
    now apply (fileListInv_same w).
Qed.

Lemma nth_error_fileItems (i k : nat) (files : list File) :
  nth_error (fileItems i files) k
  = option_map (fun f => mkFileItem (i + k) (name f) (size f)) (nth_error files k).
Proof.
  revert i k. induction files as [|f files IH]; intros i [|k]; simpl; try reflexivity.
  - now rewrite Nat.add_0_r.
  - rewrite IH. now rewrite Nat.add_succ_r.
Qed.

Lemma length_fileItems (i : nat) (files : list File) :
  List.length (fileItems i files) = List.length files.
Proof.
  revert i. induction files as [|f files IH]; intros i; simpl; [reflexivity|].
  now rewrite IH.
Qed.

(** X3. Whatever callbacks run from a page whose file list, if visible,
    shows the selection, a visible file list still shows the selection: the
    selection is not empty, the upload and clear controls are visible, and
    the entry at position k carries the index k, the name and the size of the
    k-th selected file, so its remove button removes that file. *)
Theorem visible_file_list_shows_selection (w0 : World) (es : list Event)
  (Hstart : fileListInv w0)
  (Hshown : fileList_hidden (upload_ui (runFrom w0 es)) = false) :
  let w := runFrom w0 es in
  selectedFiles (state w) <> []
  /\ uploadActions_hidden (upload_ui w) = false
  /\ List.length (fileList_items (upload_ui w)) = List.length (selectedFiles (state w))
  /\ forall k item,
       nth_error (fileList_items (upload_ui w)) k = Some item ->
       item_index item = k
       /\ exists f, nth_error (selectedFiles (state w)) k = Some f
                    /\ item_name item = name f /\ item_size item = size f
                    /\ selectedFiles (state (removeFile (item_index item) w))
                       = firstn k (selectedFiles (state w))
                         ++ skipn (S k) (selectedFiles (state w)).
Proof.
  intros w.
  assert (Hinv : fileListInv w).
  { apply (runFrom_invariant fileListInv); [apply fileListInv_step|exact Hstart]. }
  destruct (Hinv Hshown) as (Hne & Hact & Hitems).
  split; [exact Hne|]. split; [exact Hact|]. split.
  - rewrite Hitems. apply length_fileItems.
  - intros k item Hk. rewrite Hitems, nth_error_fileItems in Hk.
    destruct (nth_error (selectedFiles (state w)) k) as [f|] eqn:Hf;
      [|discriminate].
    cbn in Hk. injection Hk as <-. cbn. split; [reflexivity|].
    exists f. repeat split.
    unfold removeFile. rewrite renderFileList_state. cbn.
    apply splice1_firstn_skipn.
Qed.

(** From the page as loaded, two files are dropped on the page, then the
    first one is removed. *)
Lemma visible_file_list_shows_selection_witness :
  let w := runFrom initial_world
             [EvHandleFiles [mkFile "a.pdf" 1; mkFile "notes.txt" 9; mkFile "b.PDF" 2];
              EvRemoveFile 0] in
  selectedFiles (state w) <> []
  /\ uploadActions_hidden (upload_ui w) = false
  /\ List.length (fileList_items (upload_ui w)) = List.length (selectedFiles (state w))
  /\ forall k item,
       nth_error (fileList_items (upload_ui w)) k = Some item ->
       item_index item = k
       /\ exists f, nth_error (selectedFiles (state w)) k = Some f
                    /\ item_name item = name f /\ item_size item = size f
                    /\ selectedFiles (state (removeFile (item_index item) w))
                       = firstn k (selectedFiles (state w))
                         ++ skipn (S k) (selectedFiles (state w)).
Proof.
  apply (visible_file_list_shows_selection initial_world
           [EvHandleFiles [mkFile "a.pdf" 1; mkFile "notes.txt" 9; mkFile "b.PDF" 2];
            EvRemoveFile 0]).
  - unfold fileListInv. cbn. discriminate.
  - reflexivity.
Defined.

Lemma panelsExclusive_step (e : Event) (w : World) :
  panelsExclusive w -> panelsExclusive (step e w).
Proof.
  unfold panelsExclusive. intros Hinv.
  assert (Hrender : forall v,
            uploadArea_hidden (upload_ui (renderFileList v)) = uploadArea_hidden (upload_ui v)
            /\ status_ui (renderFileList v) = status_ui v).
  { intros v. unfold renderFileList. destruct (_ =? _)%nat; split; reflexivity. }
  assert (Hreset : forall v,
            uploadArea_hidden (upload_ui (resetUploadUI v))
            = negb (processingStatus_hidden (status_ui (resetUploadUI v)))).
  { intros v. unfold resetUploadUI.
    match goal with |- context [renderFileList ?x] =>
      destruct (Hrender x) as [-> ->] end. reflexivity. }
  assert (Hshape : forall w',
            (exists v, sameOutsideMonitoring w v /\ (w' = v \/ w' = resetUploadUI v)) ->
            uploadArea_hidden (upload_ui w') = negb (processingStatus_hidden (status_ui w'))).
  { intros w' (v & (Hu & _ & _ & Hp & _) & [-> | ->]); [|apply Hreset].
    now rewrite Hu, Hp. }
  destruct e as [files|index| | |r|r|r| |now r]; cbn [step].
  - unfold handleFiles. destruct (_ =? _)%nat; [exact Hinv|].
    match goal with |- context [renderFileList ?x] =>
      destruct (Hrender x) as [-> ->] end. exact Hinv.
  - unfold removeFile.
    match goal with |- context [renderFileList ?x] =>
      destruct (Hrender x) as [-> ->] end. exact Hinv.
  - unfold clearFiles.
    match goal with |- context [renderFileList ?x] =>
      destruct (Hrender x) as [-> ->] end. exact Hinv.
  - unfold uploadFiles_begin. destruct (_ =? _)%nat; [exact Hinv|reflexivity].
  - apply Hshape, uploadFiles_resume_shape.
  - apply Hshape, monitorTick_shape.
  - apply Hshape, monitorAnswer_shape.
  - apply Hshape, settleFire_shape.
  - destruct (fetchJobs_frame now r w) as (-> & -> & _). exact Hinv.
Qed.

(** X4. From a page that shows exactly one of the upload area and the
    processing panel, whatever callbacks run, exactly one of the two is
    visible. *)
Theorem upload_area_and_processing_panel_exclusive (w0 : World) (es : list Event)
  (Hstart : uploadArea_hidden (upload_ui w0)
            = negb (processingStatus_hidden (status_ui w0))) :
  uploadArea_hidden (upload_ui (runFrom w0 es))
  = negb (processingStatus_hidden (status_ui (runFrom w0 es))).
Proof.
  apply (runFrom_invariant panelsExclusive); [apply panelsExclusive_step|exact Hstart].
Qed.

(** A file is selected, its upload is accepted, and the job is answered as
    not found. *)
Lemma upload_area_and_processing_panel_exclusive_witness :
  let es := [EvHandleFiles [mkFile "invoice.pdf" 1024]; EvUploadBegin;
             EvUploadResume (UploadHttp 200 (Some "job-1"));
             EvMonitorTick (StatusHttp 404 None)] in
  uploadArea_hidden (upload_ui (runFrom initial_world es))
  = negb (processingStatus_hidden (status_ui (runFrom initial_world es))).
Proof.
  exact (upload_area_and_processing_panel_exclusive initial_world
           [EvHandleFiles [mkFile "invoice.pdf" 1024]; EvUploadBegin;
            EvUploadResume (UploadHttp 200 (Some "job-1"));
            EvMonitorTick (StatusHttp 404 None)] eq_refl).
Defined.

End RunInvariants.

(** ** Job list synchronizer *)
Section SynchronizerExtras.















Lemma jobChanged_same (j : Job) : isNumber (progress j) = true -> jobChanged j j = false.
Proof.
  unfold isNumber, jobChanged, JS.number_neq, JS.string_neq. intros ->.
  rewrite String.eqb_refl. cbn.
  assert (Hm : JS.opt_string_neq (message j) (message j) = false).
  { destruct (message j) as [m|]; cbn; [|reflexivity].
    unfold JS.string_neq. now rewrite String.eqb_refl. }
  rewrite Hm. now destruct (isActive (status j)).
Qed.

(** The cache is listed again: nothing is marked. *)
Lemma updateJobsSelectively_same (now : Z) (snapshot : list Job) (w : World) :
  snapshot <> [] -> jobs (state w) = snapshot ->
  NoDup (map job_id snapshot) ->
  (forall j, In j snapshot -> isNumber (progress j) = true) ->
  updateJobsSelectively now snapshot w
  = set_jobs snapshot
      (set_history_ui (fun h => mkHistoryView true true false (historyList h)) w).
Proof.
  intros Hne Hcache Hnd Hnum.
  assert (Hfind : forall j, In j snapshot -> findJob (job_id j) snapshot = Some j).
  { intros j Hj. now apply findJob_NoDup. }
  assert (Hpath : selectivePath (jobs (state w)) snapshot = true).
  { apply selectivePath_true. rewrite Hcache. repeat split; [exact Hne|].
    intros n Hn. exists n. now apply Hfind. }
  rewrite (updateJobsSelectively_selective now snapshot w Hpath), Hcache.
  assert (Hnone : filter (changedIn snapshot) snapshot = []).
  { assert (Hall : forall l, incl l snapshot -> filter (changedIn snapshot) l = []).
    { induction l as [|j l IH]; intros Hincl; [reflexivity|]. simpl.
      unfold changedIn at 1. rewrite (Hfind j (Hincl j (or_introl eq_refl))).
      rewrite (jobChanged_same j (Hnum j (Hincl j (or_introl eq_refl)))).
      apply IH. intros x Hx. apply Hincl. now right. }
    apply Hall, incl_refl. }
  now rewrite Hnone.
Qed.

(** X7. A tick that lists the cache again (distinct ids, progress values
    that are numbers) replaces no card: the history is left as it is, also
    the relative times it shows, whatever the clock reads now; the list is
    shown and the empty state hidden. *)
Theorem unchanged_snapshot_replaces_no_card
  (now : Z) (s : Z) (snapshot : list Job) (w : World)
  (Hok : JS.response_ok s = true)
  (Hne : snapshot <> [])
  (Hcache : jobs (state w) = snapshot)
  (Hids : NoDup (map job_id snapshot))
  (Hnum : forall j, In j snapshot -> isNumber (progress j) = true) :
  let w' := fetchJobs now (ListHttp s (Some snapshot)) w in
  historyList (history_ui w') = historyList (history_ui w)
  /\ jobs (state w') = snapshot
  /\ historyList_hidden (history_ui w') = false
  /\ historyEmpty_hidden (history_ui w') = true
  /\ historyLoading_hidden (history_ui w') = true.
Proof.
  cbn zeta. unfold fetchJobs. rewrite Hok. cbn [negb].
  rewrite (updateJobsSelectively_same now snapshot w Hne Hcache Hids Hnum).
  repeat split.
Qed.

(** The five jobs are listed again an hour later: the cards still show the
    times of the first tick. *)
Lemma unchanged_snapshot_replaces_no_card_witness :
  let w := listed (five_jobs None) in
  let w' := fetchJobs (sample_now + 3600000) (ListHttp 200 (Some (five_jobs None))) w in
  historyList (history_ui w') = historyList (history_ui w)
  /\ jobs (state w') = five_jobs None
  /\ historyList_hidden (history_ui w') = false
  /\ historyEmpty_hidden (history_ui w') = true
  /\ historyLoading_hidden (history_ui w') = true.
Proof.
  apply (unchanged_snapshot_replaces_no_card (sample_now + 3600000) 200 (five_jobs None)).
  - reflexivity.
  - discriminate.
  - reflexivity.
  - repeat constructor; simpl; intuition discriminate.
  - intros j Hj. simpl in Hj.
    repeat (destruct Hj as [<-|Hj]; [reflexivity|]). contradiction.
Defined.

(** X8. A tick whose request fails, or that lists no job, shows the empty
    state and hides the list but discards nothing: cards and cache stay, and
    the next tick that lists the cache again shows the same cards. *)
Theorem failed_tick_hides_list_and_next_tick_restores_it
  (now later : Z) (r : ListResponse) (s : Z) (w : World)
  (Hfail : listFailed r = true \/ listsNothing r = true)
  (Hok : JS.response_ok s = true)
  (Hne : jobs (state w) <> [])
  (Hids : NoDup (map job_id (jobs (state w))))
  (Hnum : forall j, In j (jobs (state w)) -> isNumber (progress j) = true) :
  let w1 := fetchJobs now r w in
  let w2 := fetchJobs later (ListHttp s (Some (jobs (state w)))) w1 in
  (historyList_hidden (history_ui w1) = true
   /\ historyEmpty_hidden (history_ui w1) = false
   /\ historyList (history_ui w1) = historyList (history_ui w)
   /\ jobs (state w1) = jobs (state w))
  /\ (historyList_hidden (history_ui w2) = false
      /\ historyEmpty_hidden (history_ui w2) = true
      /\ historyList (history_ui w2) = historyList (history_ui w)
      /\ jobs (state w2) = jobs (state w)).
Proof.
  intros w1 w2.
  assert (H1 : w1 = showEmptyHistory w
               \/ w1 = showEmptyHistory
                         (set_history_ui
                            (fun h => mkHistoryView true (historyEmpty_hidden h)
                                                    (historyList_hidden h) (historyList h))
                            w)).
  { subst w1. destruct r as [|http body]; cbn [listFailed listsNothing fetchJobs] in *;
      [now left|].
    destruct Hfail as [Hf|Hf]; [rewrite Hf; now left|].
    apply andb_true_iff in Hf. destruct Hf as [-> Hbody]. cbn [negb]. right.
    destruct body as [[|j l]|]; [reflexivity|discriminate|reflexivity]. }
  assert (Hfirst : historyList_hidden (history_ui w1) = true
                   /\ historyEmpty_hidden (history_ui w1) = false
                   /\ historyList (history_ui w1) = historyList (history_ui w)
                   /\ jobs (state w1) = jobs (state w)).
  { destruct H1 as [-> | ->]; repeat split. }
  split; [exact Hfirst|]. destruct Hfirst as (_ & _ & Hl & Hj).
  subst w2. clear H1. clearbody w1. unfold fetchJobs. rewrite Hok. cbn [negb].
  rewrite (updateJobsSelectively_same later (jobs (state w)) w1 Hne Hj Hids Hnum).
  cbn. rewrite Hl. repeat split.
Qed.

(** The list endpoint answers 500 once, then lists the five jobs again. *)
Lemma failed_tick_hides_list_and_next_tick_restores_it_witness :
  let w := listed (five_jobs None) in
  let w1 := fetchJobs sample_now (ListHttp 500 None) w in
  let w2 := fetchJobs (sample_now + 2000) (ListHttp 200 (Some (jobs (state w)))) w1 in
  (historyList_hidden (history_ui w1) = true
   /\ historyEmpty_hidden (history_ui w1) = false
   /\ historyList (history_ui w1) = historyList (history_ui w)
   /\ jobs (state w1) = jobs (state w))
  /\ (historyList_hidden (history_ui w2) = false
      /\ historyEmpty_hidden (history_ui w2) = true
      /\ historyList (history_ui w2) = historyList (history_ui w)
      /\ jobs (state w2) = jobs (state w)).
Proof.
  apply (failed_tick_hides_list_and_next_tick_restores_it
           sample_now (sample_now + 2000) (ListHttp 500 None) 200
           (listed (five_jobs None))).
  - left. reflexivity.
  - reflexivity.
  - discriminate.
  - repeat constructor; simpl; intuition discriminate.
  - intros j Hj. simpl in Hj.
    repeat (destruct Hj as [<-|Hj]; [reflexivity|]). contradiction.
Defined.

End SynchronizerExtras.

(** ** Display order *)
Section SortExtras.

Lemma insertJob_in_front (a : Job) (l : list Job) :
  HdRel createdDesc a l -> insertJob a l = a :: l.
Proof.
  intros H. destruct l as [|b l]; [reflexivity|]. simpl.
  inversion H as [|x xs Hab]; subst. unfold createdDesc in Hab.
  destruct (Z.leb_spec (compareJobs a b) 0) as [_|Hgt]; [reflexivity|].
  unfold compareJobs in Hgt. lia.
Qed.

Lemma sortJobs_sorted_id (l : list Job) : Sorted createdDesc l -> sortJobs l = l.
Proof.
  induction l as [|a l IH]; intros Hs; [reflexivity|]. simpl.
  apply Sorted_inv in Hs. destruct Hs as [Hs Hhd].
  rewrite (IH Hs). now apply insertJob_in_front.
Qed.

(** X9. A snapshot that already lists newer jobs first is rendered in the
    order it came in, and sorting a second time changes nothing. *)
Theorem sortJobs_keeps_newest_first_order (now : Z) (l : list Job) :
  (Sorted createdDesc l ->
   sortJobs l = l /\ fullRender now l = map (createJobCardHTML now) l)
  /\ sortJobs (sortJobs l) = sortJobs l.
Proof.
  split.
  - intros Hs. unfold fullRender. now rewrite (sortJobs_sorted_id l Hs).
  - apply sortJobs_sorted_id, sortJobs_sorted.
Qed.

(** Five jobs, newest first. *)
Lemma sortJobs_keeps_newest_first_order_witness :
  sortJobs (rev (five_jobs None)) = rev (five_jobs None)
  /\ fullRender sample_now (rev (five_jobs None))
     = map (createJobCardHTML sample_now) (rev (five_jobs None)).
Proof.
  apply (proj1 (sortJobs_keeps_newest_first_order sample_now (rev (five_jobs None)))).
  simpl. unfold createdDesc. repeat constructor; simpl; lia.
Defined.

Lemma insertJob_filter (t : Z) (a : Job) (l : list Job) :
  filter (fun j => created_at j =? t) (insertJob a l)
  = filter (fun j => created_at j =? t) (a :: l).
Proof.
  induction l as [|b l IH]; [reflexivity|].
  cbn [insertJob]. destruct (Z.leb_spec (compareJobs a b) 0) as [_|Hgt]; [reflexivity|].
  unfold compareJobs in Hgt. cbn [filter] in *. rewrite IH.
  destruct (Z.eqb_spec (created_at a) t) as [Ea|Ea]; [|reflexivity].
  destruct (Z.eqb_spec (created_at b) t) as [Eb|Eb]; [lia|reflexivity].
Qed.

(** X10. The history order is stable: jobs created at the same time are
    shown in the order the snapshot lists them. *)
Theorem sortJobs_stable (t : Z) (l : list Job) :
  filter (fun j => created_at j =? t) (sortJobs l)
  = filter (fun j => created_at j =? t) l.
Proof.
  induction l as [|a l IH]; [reflexivity|].
  cbn [sortJobs]. rewrite insertJob_filter. cbn [filter]. now rewrite IH.
Qed.

Lemma insertJob_sameIdsAndTimes (a a' : Job) (l l' : list Job) :
  job_id a = job_id a' -> created_at a = created_at a' ->
  sameIdsAndTimes l l' -> sameIdsAndTimes (insertJob a l) (insertJob a' l').
Proof.
  unfold sameIdsAndTimes. intros Hid Ht H.
  induction H as [|b b' l l' [Hbid Hbt] H IH]; cbn [insertJob].
  - now repeat constructor.
  - unfold compareJobs. rewrite <- Ht, <- Hbt.
    destruct (created_at b - created_at a <=? 0).
    + constructor; [now split|]. constructor; [now split|exact H].
    + constructor; [now split|exact IH].
Qed.

(** X11. The display order depends only on the creation times: when a
    snapshot lists the same ids with the same creation times as the cache,
    position by position, the ids appear in the same display order. *)
Theorem same_ids_and_times_same_display_order (oldJobs newJobs : list Job)
  (Hsame : sameIdsAndTimes oldJobs newJobs) :
  sameIdsAndTimes (sortJobs oldJobs) (sortJobs newJobs)
  /\ map job_id (sortJobs newJobs) = map job_id (sortJobs oldJobs).
Proof.
  assert (Hs : sameIdsAndTimes (sortJobs oldJobs) (sortJobs newJobs)).
  { induction Hsame as [|o n l l' [Hid Ht] H IH]; cbn [sortJobs]; [constructor|].
    now apply insertJob_sameIdsAndTimes. }
  split; [exact Hs|].
  induction Hs as [|o n l l' [Hid _] _ IH]; simpl; [reflexivity|].
  now rewrite Hid, IH.
Qed.

(** The five jobs with another message on the pending one. *)
Lemma same_ids_and_times_same_display_order_witness :
  sameIdsAndTimes (sortJobs (five_jobs None)) (sortJobs (five_jobs (Some "queued")))
  /\ map job_id (sortJobs (five_jobs (Some "queued")))
     = map job_id (sortJobs (five_jobs None)).
Proof.
  apply same_ids_and_times_same_display_order.
  unfold sameIdsAndTimes, five_jobs. repeat constructor.
Defined.

End SortExtras.

(** ** Cards of unmarked jobs *)
Section CardExtras.

(** Two progress values that [!==] does not tell apart print the same
    percentage. *)
Lemma number_eq_same_percent (p q : float) :
  JS.number_neq p q = false -> percent p = percent q.
Proof.
  unfold JS.number_neq. intros H. apply negb_false_iff in H.
  rewrite FloatAxioms.eqb_spec in H. unfold SFeqb, SFcompare in H.
  pose proof (FloatAxioms.SF2Prim_Prim2SF p) as Hp.
  pose proof (FloatAxioms.SF2Prim_Prim2SF q) as Hq.
  destruct (Prim2SF p) as [sp|sp| |sp mp ep] eqn:E1;
    destruct (Prim2SF q) as [sq|sq| |sq mq eq'] eqn:E2;
    try discriminate H.
  - subst p q. destruct sp, sq; vm_compute; reflexivity.
  - destruct sq; discriminate H.
  - destruct sq; discriminate H.
  - destruct sp; discriminate H.
  - destruct sp, sq; try discriminate H; now rewrite <- Hp, <- Hq.
  - destruct sp; discriminate H.
  - destruct sp; discriminate H.
  - destruct sq; discriminate H.
  - assert (E : sp = sq /\ ep = eq' /\ mp = mq).
    { destruct sp, sq; try discriminate H;
        destruct (Z.compare_spec ep eq') as [He|He|He]; try discriminate H;
        destruct (Pos.compare_cont Datatypes.Eq mp mq) eqn:Hm; try discriminate H;
        apply Pos.compare_eq in Hm; auto. }
    destruct E as (-> & -> & ->). now rewrite <- Hp, <- Hq.
Qed.

(** X12. A job the comparison leaves unmarked renders the card of its cached
    record whenever id, creation time and file count are unchanged and, for
    a job that is not active, the message is unchanged too: for an active
    job the comparison covers every other field the card shows. *)
Theorem unmarked_job_renders_cached_card (now : Z) (oldJob newJob : Job)
  (Hid : job_id oldJob = job_id newJob)
  (Htime : created_at oldJob = created_at newJob)
  (Hfiles : total_files oldJob = total_files newJob)
  (Hunmarked : jobChanged oldJob newJob = false)
  (Hmsg : isActive (status newJob) = false -> message oldJob = message newJob) :
  createJobCardHTML now newJob = createJobCardHTML now oldJob.
Proof.
  unfold jobChanged in Hunmarked.
  assert (Hst : status oldJob = status newJob /\ message oldJob = message newJob
                /\ (isActive (status newJob) = true ->
                    percent (progress oldJob) = percent (progress newJob))).
  { destruct (isActive (status newJob)) eqn:Hact.
    - apply orb_false_iff in Hunmarked. destruct Hunmarked as [Hunmarked Hm].
      apply orb_false_iff in Hunmarked. destruct Hunmarked as [Hs Hp].
      split; [|split].
      + unfold JS.string_neq in Hs. apply negb_false_iff in Hs. now apply String.eqb_eq.
      + destruct (message oldJob) as [a|], (message newJob) as [b|];
          cbn in Hm; try discriminate; [|reflexivity].
        unfold JS.string_neq in Hm. apply negb_false_iff, String.eqb_eq in Hm. now subst.
      + intros _. now apply number_eq_same_percent.
    - split; [|split; [now apply Hmsg|discriminate]].
      unfold JS.string_neq in Hunmarked. apply negb_false_iff in Hunmarked.
      now apply String.eqb_eq. }
  destruct Hst as (Hs & Hm & Hp).
  unfold createJobCardHTML. rewrite Hid, Htime, Hfiles, Hs, Hm.
  destruct (String.eqb (status newJob) "processing" || String.eqb (status newJob) "uploading")
    eqn:Hbar; [|reflexivity].
  rewrite Hp; [reflexivity|].
  unfold isActive. apply orb_true_iff in Hbar.
  destruct Hbar as [-> | ->]; [apply orb_true_r|].
  rewrite orb_true_r. reflexivity.
Qed.

(** A completed job is listed again with another progress value. *)
Lemma unmarked_job_renders_cached_card_witness :
  createJobCardHTML sample_now (mkJob "b" "completed" 0.5%float None 1700000000000 1)
  = createJobCardHTML sample_now (job_b "completed" None).
Proof.
  apply unmarked_job_renders_cached_card; reflexivity.
Defined.

End CardExtras.

(** ** Upload coordinator and monitor *)
Section MonitorExtras.

Lemma monitorRun_stopped (rs : list StatusResponse) (w : World) :
  checkInterval (monitor w) = false -> monitorRun rs w = w.
Proof.
  intros Hstop. induction rs as [|r rs IH]; [reflexivity|].
  assert (Htick : monitorTick r w = w) by (unfold monitorTick; now rewrite Hstop).
  unfold monitorRun in *. cbn [fold_left]. now rewrite Htick.
Qed.

(** With the interval cleared and no request in flight, nothing of the
    monitor runs any more. *)
Lemma monitorRunAsync_idle (es : list MonitorEvent) (w : World) :
  checkInterval (monitor w) = false ->
  monitorRunAsync es (w, 0%nat) = (w, 0%nat).
Proof.
  intros Hstop. unfold monitorRunAsync.
  induction es as [|e es IH]; [reflexivity|].
  cbn [fold_left]. destruct e as [|r]; cbn [monitorStep]; [rewrite Hstop|]; exact IH.
Qed.

(** X13. An answer with a terminal status ends the polling but keeps the
    processing panel, with the terminal status on it, and arms the 2-second
    timer; no notice is raised. With no other status request in flight, no
    callback of the monitor runs after it, so the view changes next when the
    timer fires: then it goes back to selecting and the selection is
    emptied. *)
Theorem terminal_answer_holds_status_until_timer
  (w : World) (s : Z) (job : Job)
  (Hok : JS.response_ok s = true)
  (Hterm : isTerminal (status job) = true) :
  let w' := monitorAnswer (StatusHttp s (Some job)) w in
  (checkInterval (monitor w') = false
   /\ settleTimeout (monitor w') = true
   /\ processingStatus_hidden (status_ui w') = processingStatus_hidden (status_ui w)
   /\ statusTitle (status_ui w') = JS.capitalize (status job)
   /\ upload_ui w' = upload_ui w
   /\ state w' = state w
   /\ alerts w' = alerts w)
  /\ (forall es, monitorRunAsync es (w', 0%nat) = (w', 0%nat))
  /\ (viewSelecting (settleFire w')
      /\ selectedFiles (state (settleFire w')) = []
      /\ settleTimeout (monitor (settleFire w')) = false
      /\ alerts (settleFire w') = alerts w)
  /\ (checkInterval (monitor w) = true ->
      truthy (currentJobId (state w)) = true ->
      monitorTick (StatusHttp s (Some job)) w = w').
Proof.
  cbn zeta. split; [|split; [|split]].
  - rewrite (monitorAnswer_success w s job Hok). cbn zeta. rewrite Hterm. repeat split.
  - intros es. apply monitorRunAsync_idle.
    rewrite (monitorAnswer_success w s job Hok). cbn zeta. now rewrite Hterm.
  - rewrite (monitorAnswer_success w s job Hok). cbn zeta. rewrite Hterm.
    unfold settleFire. cbn [setTimeout_reset set_monitor monitor settleTimeout].
    rewrite resetUploadUI_selectedFiles, resetUploadUI_monitor, resetUploadUI_alerts.
    split; [apply resetUploadUI_viewSelecting|]. repeat split.
  - intros Hrun Hid. now apply monitorTick_answer.
Qed.

(** The monitored job is answered as completed. *)
Lemma terminal_answer_holds_status_until_timer_witness :
  let job := mkJob "job-1" "completed" 1%float (Some "6 files done") 1700000060000 6 in
  let w' := monitorAnswer (StatusHttp 200 (Some job)) monitoring_started in
  (checkInterval (monitor w') = false
   /\ settleTimeout (monitor w') = true
   /\ processingStatus_hidden (status_ui w')
      = processingStatus_hidden (status_ui monitoring_started)
   /\ statusTitle (status_ui w') = "Completed"
   /\ upload_ui w' = upload_ui monitoring_started
   /\ state w' = state monitoring_started
   /\ alerts w' = alerts monitoring_started)
  /\ (forall es, monitorRunAsync es (w', 0%nat) = (w', 0%nat))
  /\ (viewSelecting (settleFire w')
      /\ selectedFiles (state (settleFire w')) = []
      /\ settleTimeout (monitor (settleFire w')) = false
      /\ alerts (settleFire w') = alerts monitoring_started)
  /\ (checkInterval (monitor monitoring_started) = true ->
      truthy (currentJobId (state monitoring_started)) = true ->
      monitorTick (StatusHttp 200 (Some job)) monitoring_started = w').
Proof.
  exact (terminal_answer_holds_status_until_timer monitoring_started 200
           (mkJob "job-1" "completed" 1%float (Some "6 files done") 1700000060000 6)
           eq_refl eq_refl).
Defined.

Lemma monitorTick_no_job (r : StatusResponse) (w : World) :
  currentJobId (state w) = None ->
  checkInterval (monitor (monitorTick r w)) = false
  /\ state (monitorTick r w) = state w
  /\ upload_ui (monitorTick r w) = upload_ui w
  /\ status_ui (monitorTick r w) = status_ui w
  /\ alerts (monitorTick r w) = alerts w
  /\ settleTimeout (monitor (monitorTick r w)) = settleTimeout (monitor w).
Proof.
  intros Hid. unfold monitorTick, monitorFire.
  destruct (checkInterval (monitor w)) eqn:Hrun; cbn [negb].
  - rewrite Hid. cbn [truthy]. repeat split.
  - repeat split. exact Hrun.
Qed.

(** X14. An upload answered with success but without a job id leaves the
    page in the processing view for good: the first monitor tick finds no
    job id and cancels the polling without a request, no notice is raised,
    no timer is pending, and nothing puts the view back to selecting. *)
Theorem accepted_upload_without_job_id_stalls
  (w : World) (s : Z) (rs : list StatusResponse)
  (Hsel : selectedFiles (state w) <> [])
  (Hok : JS.response_ok s = true)
  (Htimer : settleTimeout (monitor w) = false) :
  let w1 := uploadFiles_resume (UploadHttp s None) (fst (uploadFiles_begin w)) in
  let w' := monitorRun rs w1 in
  processingStatus_hidden (status_ui w') = false
  /\ uploadArea_hidden (upload_ui w') = true
  /\ currentJobId (state w') = None
  /\ selectedFiles (state w') = selectedFiles (state w)
  /\ alerts w' = alerts w
  /\ (rs <> [] -> checkInterval (monitor w') = false)
  /\ settleFire w' = w'.
Proof.
  intros w1 w'.
  assert (H1 : processingStatus_hidden (status_ui w1) = false
               /\ uploadArea_hidden (upload_ui w1) = true
               /\ currentJobId (state w1) = None
               /\ selectedFiles (state w1) = selectedFiles (state w)
               /\ alerts w1 = alerts w
               /\ settleTimeout (monitor w1) = false).
  { subst w1. unfold uploadFiles_resume, uploadFiles_begin. rewrite Hok.
    destruct (List.length (selectedFiles (state w)) =? 0)%nat eqn:E.
    - apply length_zero_nil in E. contradiction.
    - cbn. repeat split. exact Htimer. }
  assert (Hgen : forall l v,
            processingStatus_hidden (status_ui v) = false
            /\ uploadArea_hidden (upload_ui v) = true
            /\ currentJobId (state v) = None
            /\ selectedFiles (state v) = selectedFiles (state w)
            /\ alerts v = alerts w
            /\ settleTimeout (monitor v) = false ->
            (processingStatus_hidden (status_ui (monitorRun l v)) = false
             /\ uploadArea_hidden (upload_ui (monitorRun l v)) = true
             /\ currentJobId (state (monitorRun l v)) = None
             /\ selectedFiles (state (monitorRun l v)) = selectedFiles (state w)
             /\ alerts (monitorRun l v) = alerts w
             /\ settleTimeout (monitor (monitorRun l v)) = false)
            /\ (l <> [] -> checkInterval (monitor (monitorRun l v)) = false)).
  { intros l v Hv. destruct l as [|r l]; [split; [exact Hv|congruence]|].
    destruct Hv as (Hp & Hu & Hid & Hs & Ha & Ht).
    destruct (monitorTick_no_job r v Hid) as (Hstop & Est & Eup & Estat & Eal & Etm).
    cbn [monitorRun fold_left].
    change (fold_left (fun w0 r0 => monitorTick r0 w0) l (monitorTick r v))
      with (monitorRun l (monitorTick r v)).
    rewrite (monitorRun_stopped l _ Hstop).
    rewrite Est, Eup, Estat, Eal, Etm.
    split; [repeat split; assumption|intros _; exact Hstop]. }
  destruct (Hgen rs w1 H1) as ((Hp & Hu & Hid & Hs & Ha & Ht) & Hstop).
  fold w' in Hp, Hu, Hid, Hs, Ha, Ht, Hstop.
  split; [exact Hp|]. split; [exact Hu|]. split; [exact Hid|]. split; [exact Hs|].
  split; [exact Ha|]. split; [exact Hstop|].
  unfold settleFire. now rewrite Ht.
Qed.

(** The upload of the selected file is answered 200 with no job id, and
    three monitor ticks follow. *)
Lemma accepted_upload_without_job_id_stalls_witness :
  let w1 := uploadFiles_resume (UploadHttp 200 None) (fst (uploadFiles_begin one_file_selected)) in
  let w' := monitorRun [StatusRejected; StatusHttp 200 None; StatusHttp 404 None] w1 in
  processingStatus_hidden (status_ui w') = false
  /\ uploadArea_hidden (upload_ui w') = true
  /\ currentJobId (state w') = None
  /\ selectedFiles (state w') = selectedFiles (state one_file_selected)
  /\ alerts w' = alerts one_file_selected
  /\ ([StatusRejected; StatusHttp 200 None; StatusHttp 404 None] <> [] ->
      checkInterval (monitor w') = false)
  /\ settleFire w' = w'.
Proof.
  apply (accepted_upload_without_job_id_stalls one_file_selected 200
           [StatusRejected; StatusHttp 200 None; StatusHttp 404 None]).
  - discriminate.
  - reflexivity.
  - reflexivity.
Defined.

(** X15. A failed upload raises one notice and hands the page back ready
    for another try: the view is selecting, the selection and the file input
    are emptied, the file list and its controls are hidden, and no monitor
    is started. *)
Theorem failed_upload_returns_to_selecting (w : World) (r : UploadResponse)
  (Hfail : uploadFailed r = true) :
  let w' := uploadFiles_resume r (fst (uploadFiles_begin w)) in
  viewSelecting w'
  /\ selectedFiles (state w') = []
  /\ fileInput_value (upload_ui w') = ""
  /\ fileList_hidden (upload_ui w') = true
  /\ uploadActions_hidden (upload_ui w') = true
  /\ alerts w' = "Upload failed. Please try again." :: alerts w
  /\ monitor w' = monitor w
  /\ jobs (state w') = jobs (state w).
Proof.
  cbn zeta.
  assert (Hbegin : monitor (fst (uploadFiles_begin w)) = monitor w
                   /\ alerts (fst (uploadFiles_begin w)) = alerts w
                   /\ jobs (state (fst (uploadFiles_begin w))) = jobs (state w)).
  { unfold uploadFiles_begin. destruct (_ =? _)%nat; repeat split. }
  destruct Hbegin as (Hm & Ha & Hj).
  assert (Hres : uploadFiles_resume r (fst (uploadFiles_begin w))
                 = resetUploadUI (alert "Upload failed. Please try again."
                                        (fst (uploadFiles_begin w)))).
  { destruct r as [|s id]; cbn [uploadFiles_resume uploadFailed] in *; [reflexivity|].
    destruct (JS.response_ok s); [discriminate|reflexivity]. }
  rewrite Hres.
  rewrite resetUploadUI_selectedFiles, resetUploadUI_monitor, resetUploadUI_alerts,
    resetUploadUI_jobs.
  split; [apply resetUploadUI_viewSelecting|].
  cbn [alert monitor alerts state jobs]. rewrite Hm, Ha, Hj.
  unfold resetUploadUI, renderFileList. cbn. repeat split.
Qed.

(** The upload of the selected file is answered 503. *)
Lemma failed_upload_returns_to_selecting_witness :
  let w' := uploadFiles_resume (UploadHttp 503 None) (fst (uploadFiles_begin one_file_selected)) in
  viewSelecting w'
  /\ selectedFiles (state w') = []
  /\ fileInput_value (upload_ui w') = ""
  /\ fileList_hidden (upload_ui w') = true
  /\ uploadActions_hidden (upload_ui w') = true
  /\ alerts w' = "Upload failed. Please try again." :: alerts one_file_selected
  /\ monitor w' = monitor one_file_selected
  /\ jobs (state w') = jobs (state one_file_selected).
Proof.
  exact (failed_upload_returns_to_selecting one_file_selected (UploadHttp 503 None) eq_refl).
Defined.

End MonitorExtras.

(** ** File names and timestamps *)
Section TextExtras.

Lemma lower_char_is (c : ascii) :
  (JS.lower_char c = "."%char -> c = "."%char)
  /\ (JS.lower_char c = "p"%char -> c = "p"%char \/ c = "P"%char)
  /\ (JS.lower_char c = "d"%char -> c = "d"%char \/ c = "D"%char)
  /\ (JS.lower_char c = "f"%char -> c = "f"%char \/ c = "F"%char).
Proof.
  destruct c as [[] [] [] [] [] [] [] []]; vm_compute;
    (split; [|split; [|split]]); intros H;
    first [discriminate H | reflexivity | now left | now right].
Qed.

Lemma length_append (a b : string) :
  String.length (a ++ b) = (String.length a + String.length b)%nat.
Proof. induction a as [|c a IH]; simpl; [reflexivity|now rewrite IH]. Qed.

(** X16. A file is accepted exactly when its name ends in a dot followed by
    p, d, f in either case (eight spellings): the name has at least four
    characters, and what stands before the dot does not matter, empty or
    not. *)
Theorem isPdf_eight_spellings (f : File) :
  (isPdf f = true <->
   exists stem c1 c2 c3,
     name f = (stem ++ String "." (String c1 (String c2 (String c3 EmptyString))))%string
     /\ (c1 = "p" \/ c1 = "P")%char
     /\ (c2 = "d" \/ c2 = "D")%char
     /\ (c3 = "f" \/ c3 = "F")%char)
  /\ (isPdf f = true -> (4 <= String.length (name f))%nat)
  /\ isPdf (mkFile ".PdF" 0) = true
  /\ isPdf (mkFile "pdf" 0) = false
  /\ isPdf (mkFile "scan.pdf.txt" 0) = false.
Proof.
  assert (Hiff : isPdf f = true <->
            exists stem c1 c2 c3,
              name f = (stem ++ String "." (String c1 (String c2 (String c3 EmptyString))))%string
              /\ (c1 = "p" \/ c1 = "P")%char
              /\ (c2 = "d" \/ c2 = "D")%char
              /\ (c3 = "f" \/ c3 = "F")%char).
  { rewrite isPdf_spec. split.
    - intros (stem & ext & Hname & Hext).
      destruct ext as [|c0 [|c1 [|c2 [|c3 [|c4 ext]]]]]; try discriminate Hext.
      cbn [JS.toLowerCase] in Hext. injection Hext as H0 H1 H2 H3.
      apply (proj1 (lower_char_is c0)) in H0.
      apply (proj1 (proj2 (lower_char_is c1))) in H1.
      apply (proj1 (proj2 (proj2 (lower_char_is c2)))) in H2.
      apply (proj2 (proj2 (proj2 (lower_char_is c3)))) in H3.
      subst c0. exists stem, c1, c2, c3. repeat split; assumption.
    - intros (stem & c1 & c2 & c3 & Hname & H1 & H2 & H3).
      exists stem, (String "." (String c1 (String c2 (String c3 EmptyString)))).
      split; [exact Hname|].
      destruct H1 as [-> | ->], H2 as [-> | ->], H3 as [-> | ->]; reflexivity. }
  split; [exact Hiff|]. split; [|repeat split].
  intros H. apply Hiff in H. destruct H as (stem & c1 & c2 & c3 & -> & _).
  rewrite length_append. simpl. lia.
Qed.

(** X17. [formatTimestamp] by elapsed milliseconds: under one minute, also
    for a creation time ahead of the clock, "Just now"; the singular for the
    second minute; the number of whole minutes up to 59; the localized date
    from one hour on, and only then. *)
Theorem formatTimestamp_thresholds (now date : Z) :
  (now - date < 60000 -> formatTimestamp now date = TimeText "Just now")
  /\ (60000 <= now - date < 120000 ->
      formatTimestamp now date = TimeText "1 minute ago")
  /\ (120000 <= now - date < 3600000 ->
      2 <= (now - date) / 60000 <= 59
      /\ formatTimestamp now date
         = TimeText (JS.Z_toString ((now - date) / 60000) ++ " minutes ago")%string)
  /\ (3600000 <= now - date <-> formatTimestamp now date = LocaleDateTime date).
Proof.
  unfold formatTimestamp.
  pose proof (Z.div_mod (now - date) 60000 ltac:(lia)) as Hdm.
  pose proof (Z.mod_pos_bound (now - date) 60000 ltac:(lia)) as Hb.
  set (q := (now - date) / 60000) in *.
  set (m := (now - date) mod 60000) in *.
  split; [|split; [|split]].
  - intros H. destruct (Z.ltb_spec q 1); [reflexivity|lia].
  - intros H. assert (Hq : q = 1) by lia. rewrite Hq. reflexivity.
  - intros H. assert (Hq : 2 <= q <= 59) by lia. split; [exact Hq|].
    destruct (Z.ltb_spec q 1); [lia|]. destruct (Z.ltb_spec q 60); [|lia].
    destruct (Z.eqb_spec q 1); [lia|reflexivity].
  - split.
    + intros H. destruct (Z.ltb_spec q 1); [lia|].
      destruct (Z.ltb_spec q 60); [lia|reflexivity].
    + destruct (Z.ltb_spec q 1); [discriminate|].
      destruct (Z.ltb_spec q 60); [discriminate|]. intros _. lia.
Qed.

(** A job stamped five seconds ahead of the browser's clock. *)
Lemma formatTimestamp_thresholds_witness :
  formatTimestamp sample_now (sample_now + 5000) = TimeText "Just now".
Proof.
  apply (proj1 (formatTimestamp_thresholds sample_now (sample_now + 5000))).
  unfold sample_now. lia.
Defined.

End TextExtras.

(** ** Visibility of the history and order of the snapshot *)
Section HistoryExtras.



Lemma createdDesc_trans : Relations_1.Transitive createdDesc.
Proof. unfold Relations_1.Transitive, createdDesc. intros a b c. lia. Qed.

(** Two newest-first arrangements of the same jobs, whose creation times are
    distinct, are the same list. *)
Lemma sorted_permutation_unique (l1 l2 : list Job) :
  StronglySorted createdDesc l1 -> StronglySorted createdDesc l2 ->
  Permutation l1 l2 -> NoDup (map created_at l2) -> l1 = l2.
Proof.
  revert l2. induction l1 as [|a t1 IH]; intros l2 Hs1 Hs2 Hperm Hnd.
  - apply Permutation_nil in Hperm. now subst.
  - destruct l2 as [|b t2]; [apply Permutation_sym, Permutation_nil in Hperm; discriminate|].
    apply StronglySorted_inv in Hs1. destruct Hs1 as [Hs1 Ha].
    apply StronglySorted_inv in Hs2. destruct Hs2 as [Hs2 Hb].
    rewrite Forall_forall in Ha, Hb.
    assert (Eab : a = b).
    { assert (Hain : In a (b :: t2)) by (apply (Permutation_in _ Hperm); now left).
      assert (Hbin : In b (a :: t1))
        by (apply (Permutation_in _ (Permutation_sym Hperm)); now left).
      destruct Hain as [E|Hain]; [now symmetry|].
      destruct Hbin as [E|Hbin]; [exact E|].
      pose proof (Hb a Hain) as H1. pose proof (Ha b Hbin) as H2.
      unfold createdDesc in H1, H2.
      apply (NoDup_map_inj created_at (b :: t2)); [exact Hnd|now right|now left|lia]. }
    subst b. f_equal. apply IH; [exact Hs1|exact Hs2| |].
    + now apply Permutation_cons_inv in Hperm.
    + now inversion Hnd.
Qed.

(** X19. With distinct creation times the order in which the endpoint lists
    the jobs does not matter: two snapshots that hold the same jobs are
    rendered as the same list of cards. *)
Theorem listing_order_is_irrelevant (now : Z) (l l' : list Job)
  (Hperm : Permutation l l')
  (Htimes : NoDup (map created_at l)) :
  sortJobs l = sortJobs l' /\ fullRender now l = fullRender now l'.
Proof.
  assert (E : sortJobs l = sortJobs l').
  { apply sorted_permutation_unique.
    - apply Sorted_StronglySorted; [apply createdDesc_trans|apply sortJobs_sorted].
    - apply Sorted_StronglySorted; [apply createdDesc_trans|apply sortJobs_sorted].
    - rewrite (sortJobs_perm l), (sortJobs_perm l'). exact Hperm.
    - apply (Permutation_NoDup (l := map created_at l)); [|exact Htimes].
      apply Permutation_map. rewrite (sortJobs_perm l'). exact Hperm. }
  split; [exact E|]. unfold fullRender. now rewrite E.
Qed.

(** The five jobs, listed oldest first and listed newest first. *)
Lemma listing_order_is_irrelevant_witness :
  sortJobs (five_jobs None) = sortJobs (rev (five_jobs None))
  /\ fullRender sample_now (five_jobs None) = fullRender sample_now (rev (five_jobs None)).
Proof.
  apply listing_order_is_irrelevant.
  - apply Permutation_rev.
  - repeat constructor; simpl; intuition discriminate.
Defined.

End HistoryExtras.

(** ** The further properties at work on the sample worlds *)


